(** * PathSense: a shallow embedding of the detection pipeline

    The development follows the Python sources of the repository:
    - [config.py]               -> [Module Config]
    - [winter_optimization.py]  -> [Module WinterOptimizer]
    - [ground_detector.py]      -> [Module GroundDetector]
    - [haptic_controller.py]    -> [Module HapticController]
    - [main.py]                 -> [Module PathSense]

    Distances, temperatures and durations are Python floats in the source.
    They are idealised here as exact rationals ([Q]); every literal of the
    source is kept as written ([0.5], [331.3], ...).  Sensor, motor, pattern
    and intensity names stay strings, since the source looks them up in
    dictionaries with defaults.

    The vibration threads of the haptic controller are modelled by a
    discrete-event scheduler: a statement takes no time, [time.sleep] lasts
    exactly its argument, and while the caller sleeps the threads that are due
    run in the order of their wake-up instants.  The ['stop'] dictionaries
    shared between the session table and the threads live in a store of
    cells addressed by reference.

    [Module Scenario] holds the concrete runs used as examples, and
    [Module Spec] the noise filter and the zone classifier as the
    specification words them. *)

From Stdlib Require Import QArith Qround Qabs Qminmax Lqa ZArith String List Lia.
From stdpp Require Import gmap strings list sorting.

#[local] Open Scope string_scope.
#[local] Open Scope list_scope.
#[local] Open Scope Q_scope.

(** ** Python built-ins used by the sources *)

Module Py.

(** [a < b] on floats, as a boolean. *)
Definition ltb (a b : Q) : bool := negb (Qle_bool b a).

(** [sum(l)]: left-to-right addition starting from 0. *)
Definition sum (l : list Q) : Q := fold_left Qplus l 0.

(** [float / len(l)]. *)
Definition len (l : list Q) : Q := inject_Z (Z.of_nat (length l)).

(** [max(l)] and [min(l)] of a non-empty list (Python raises ValueError on
    an empty one; the sources only call them on lists that contain the
    current reading). *)
Definition max (l : list Q) : Q :=
  match l with
  | [] => 0
  | x :: xs => fold_left (fun m y => if ltb m y then y else m) xs x
  end.

Definition min (l : list Q) : Q :=
  match l with
  | [] => 0
  | x :: xs => fold_left (fun m y => if ltb y m then y else m) xs x
  end.

(** [l[-k:]]: the last [k] elements (all of [l] when it is shorter). *)
Definition last_n {A} (k : nat) (l : list A) : list A :=
  drop (length l - k) l.

(** [l[k:-k]] for [k > 0]. *)
Definition trim {A} (k : nat) (l : list A) : list A :=
  drop k (take (length l - k) l).

(** [round(x)] to the nearest integer, ties to the even neighbour. *)
Definition round_half_even (x : Q) : Z :=
  let f := Qfloor x in
  match Qcompare (x - inject_Z f) (1 # 2) with
  | Lt => f
  | Gt => (f + 1)%Z
  | Eq => if Z.even f then f else (f + 1)%Z
  end.

(** [round(x, 2)]. *)
Definition round2 (x : Q) : Q := inject_Z (round_half_even (x * 100)) / 100.

(** [sorted(l)] on floats: a stable merge sort by [<=]. *)
#[export] Instance Qle_dec : RelDecision Qle := fun x y =>
  match Qlt_le_dec y x with
  | left H => right (Qlt_not_le _ _ H)
  | right H => left H
  end.

Definition sorted (l : list Q) : list Q := merge_sort Qle l.

(** A dictionary whose iteration order matters is an association list in
    insertion order; [d.get(k)] / [k in d]. *)
Definition dict (V : Type) : Type := list (string * V).

Fixpoint get {V} (d : dict V) (k : string) : option V :=
  match d with
  | [] => None
  | (k', v) :: d' => if String.eqb k' k then Some v else get d' k
  end.

(** Truthiness of an optional float: [None] and [0.0] are falsy. *)
Definition truthy (r : option Q) : bool :=
  match r with
  | None => false
  | Some d => negb (Qeq_bool d 0)
  end.

End Py.

(** ** config.py *)

Module Config.

Record Config := {
  DANGER_ZONE : Q;
  WARNING_ZONE : Q;
  ALERT_ZONE : Q;
  SCAN_INTERVAL : Q;
  SENSORS : Py.dict (Z * Z);
  GROUND_SENSOR : Z * Z;
  HAPTIC_MOTORS : Py.dict Z;
  MAX_SENSOR_DISTANCE : Q;
  MIN_SENSOR_DISTANCE : Q;
  COLD_TEMP_COMPENSATION : bool;
  SNOW_FILTER_ENABLED : bool;
  DEFAULT_TEMPERATURE : Q;
  GROUND_CALIBRATION_SAMPLES : nat;
  POTHOLE_THRESHOLD : Q;
  CURB_THRESHOLD : Q;
  MAJOR_DROP_THRESHOLD : Q
}.

(** The class attributes of [Config] as committed. *)
Definition default : Config := {|
  DANGER_ZONE := 0.5;
  WARNING_ZONE := 1.5;
  ALERT_ZONE := 3.0;
  SCAN_INTERVAL := 0.1;
  SENSORS := [ ("front_high", (17, 27)%Z);
               ("front_center", (22, 23)%Z);
               ("front_low", (24, 25)%Z);
               ("left_side", (5, 6)%Z);
               ("right_side", (13, 19)%Z) ];
  GROUND_SENSOR := (10, 9)%Z;
  HAPTIC_MOTORS := [ ("front_upper", 12%Z);
                     ("front_center", 16%Z);
                     ("front_lower", 20%Z);
                     ("left", 21%Z);
                     ("right", 26%Z) ];
  MAX_SENSOR_DISTANCE := 4.0;
  MIN_SENSOR_DISTANCE := 0.02;
  COLD_TEMP_COMPENSATION := true;
  SNOW_FILTER_ENABLED := true;
  DEFAULT_TEMPERATURE := 0.0;
  GROUND_CALIBRATION_SAMPLES := 50;
  POTHOLE_THRESHOLD := 0.15;
  CURB_THRESHOLD := 0.10;
  MAJOR_DROP_THRESHOLD := 0.30
|}.

End Config.

(** ** winter_optimization.py *)

Module WinterOptimizer.

Record WinterOptimizer := {
  config : Config.Config;
  temperature : Q;
  snow_filter_enabled : bool
}.

Definition init (config : Config.Config) : WinterOptimizer := {|
  config := config;
  temperature := Config.DEFAULT_TEMPERATURE config;
  snow_filter_enabled := Config.SNOW_FILTER_ENABLED config
|}.

Definition set_temperature (self : WinterOptimizer) (t : Q) : WinterOptimizer :=
  {| config := config self; temperature := t;
     snow_filter_enabled := snow_filter_enabled self |}.

Definition adjust_for_temperature (self : WinterOptimizer)
    (distance_reading : option Q) (temperature_arg : option Q) : option Q :=
  if negb (Config.COLD_TEMP_COMPENSATION (config self)) then distance_reading
  else
    match distance_reading with
    | None => None
    | Some d =>
        let temperature :=
          match temperature_arg with
          | None => temperature self
          | Some t => t
          end in
        let standard_speed := 343.0 in
        let actual_speed := 331.3 + (0.606 * temperature) in
        let factor := actual_speed / standard_speed in
        let compensated_distance := d * factor in
        Some (Py.round2 compensated_distance)
    end.

(** [readings] may hold [None] entries, which are dropped first. *)
Definition _calculate_variance (readings : list (option Q)) : Q :=
  if (length readings <? 2)%nat then 0.0
  else
    let valid_readings := omap id readings in
    if (length valid_readings <? 2)%nat then 0.0
    else
      let mean := Py.sum valid_readings / Py.len valid_readings in
      Py.sum (map (fun x => (x - mean) ^ 2) valid_readings)
        / Py.len valid_readings.

Definition _is_consistent_obstacle (history : list Q) (current : Q) : bool :=
  if (length history <? 3)%nat then false
  else
    let recent := Py.last_n 3 history ++ [current] in
    let max_val := Py.max recent in
    let min_val := Py.min recent in
    Py.ltb (max_val - min_val) 0.2.

(** [abs(sensor_history[-1] - sensor_history[-2])], or 0 below two
    entries. *)
Definition rate_of_change (sensor_history : list Q) : Q :=
  match rev sensor_history with
  | last1 :: last2 :: _ => Qabs (last1 - last2)
  | _ => 0
  end.

(** The body of the loop of [filter_snow_particles]: the value stored in
    [filtered[sensor_name]].  The history lists hold floats: the detection
    loop appends a reading only when it is not [None]. *)
Definition filter_reading (history_buffer : gmap string (list Q))
    (sensor_name : string) (current_distance : option Q) : option Q :=
  match current_distance with
  | None => None
  | Some current =>
      let sensor_history := default [] (history_buffer !! sensor_name) in
      if (length sensor_history <? 3)%nat then Some current
      else
        let variance := _calculate_variance (map Some sensor_history) in
        let rate_of_change := rate_of_change sensor_history in
        if Py.ltb 0.4 variance || Py.ltb 0.5 rate_of_change then
          if _is_consistent_obstacle sensor_history current
          then Some current
          else None
        else Some current
  end.

Definition filter_snow_particles (self : WinterOptimizer)
    (sensor_readings : Py.dict (option Q))
    (history_buffer : gmap string (list Q)) : Py.dict (option Q) :=
  if negb (snow_filter_enabled self) then sensor_readings
  else
    map (fun '(sensor_name, current_distance) =>
           (sensor_name,
            filter_reading history_buffer sensor_name current_distance))
        sensor_readings.

(** [estimate_battery_impact]: the capacity multiplier by temperature
    band ([temperature >= 20], [>= 0], [>= -10], [>= -20], below). *)
Definition estimate_battery_impact (temperature : Q) : Q :=
  if Qle_bool 20 temperature then 1.0
  else if Qle_bool 0 temperature then 0.95
  else if Qle_bool (-10) temperature then 0.75
  else if Qle_bool (-20) temperature then 0.50
  else 0.30.

End WinterOptimizer.

(** ** ground_detector.py *)

Module GroundDetector.

(** The hazard dictionaries returned by [detect_hazard], tagged by their
    ['type'] entry; the measure is ['depth'], ['height'] or ['change']. *)
Inductive Hazard :=
| drop_off (depth : Q) (severity description : string)
| raised_surface (height : Q) (severity description : string)
| slope (change : Q) (severity description : string).

Definition severity (h : Hazard) : string :=
  match h with
  | drop_off _ s _ | raised_surface _ s _ | slope _ s _ => s
  end.

Definition description (h : Hazard) : string :=
  match h with
  | drop_off _ _ d | raised_surface _ _ d | slope _ _ d => d
  end.

Record GroundDetector := {
  config : Config.Config;
  baseline_distance : option Q;
  calibration_readings : list Q;
  calibrated : bool
}.

Definition init (config : Config.Config) : GroundDetector := {|
  config := config;
  baseline_distance := None;
  calibration_readings := [];
  calibrated := false
|}.

Definition calibrate (self : GroundDetector) (readings : Py.dict (option Q))
    : GroundDetector :=
  match Py.get readings "ground_sensor" with
  | None | Some None => self
  | Some (Some ground) =>
      let calibration_readings := calibration_readings self ++ [ground] in
      if (Config.GROUND_CALIBRATION_SAMPLES (config self)
            <=? length calibration_readings)%nat
      then
        let sorted_readings := Py.sorted calibration_readings in
        let trim_count := (length sorted_readings / 10)%nat in
        let middle_readings :=
          if (0 <? trim_count)%nat
          then Py.trim trim_count sorted_readings
          else sorted_readings in
        {| config := config self;
           baseline_distance :=
             Some (Py.sum middle_readings / Py.len middle_readings);
           calibration_readings := calibration_readings;
           calibrated := true |}
      else
        {| config := config self;
           baseline_distance := baseline_distance self;
           calibration_readings := calibration_readings;
           calibrated := calibrated self |}
  end.

Definition _classify_drop (depth : Q) : string :=
  if Py.ltb depth 0.15 then "Small depression"
  else if Py.ltb depth 0.20 then "Pothole detected"
  else if Py.ltb depth 0.30 then "Curb or step down"
  else if Py.ltb depth 0.50 then "Large drop-off"
  else "Stairs or major drop - DANGER".

Definition _classify_rise (height : Q) : string :=
  if Py.ltb height 0.10 then "Small bump or crack"
  else if Py.ltb height 0.15 then "Curb detected"
  else if Py.ltb height 0.20 then "Step up ahead"
  else "Stairs or large obstacle".

Definition detect_hazard (self : GroundDetector) (current_distance : option Q)
    : option Hazard :=
  match calibrated self, current_distance, baseline_distance self with
  | true, Some current, Some baseline =>
      let deviation := current - baseline in
      if Py.ltb (Config.POTHOLE_THRESHOLD (config self)) deviation then
        let severity :=
          if Py.ltb (Config.MAJOR_DROP_THRESHOLD (config self)) deviation
          then "critical" else "warning" in
        Some (drop_off deviation severity (_classify_drop deviation))
      else if Py.ltb deviation (- Config.CURB_THRESHOLD (config self)) then
        Some (raised_surface (Qabs deviation) "warning"
                (_classify_rise (Qabs deviation)))
      else if Py.ltb 0.05 (Qabs deviation) then
        Some (slope deviation "info" "Sloped surface detected")
      else None
  | _, _, _ => None
  end.

End GroundDetector.

(** ** haptic_controller.py *)

Module HapticController.

(** A vibration thread runs [_vibrate_pattern].  Between two sleeps it is at
    one of two tests of its control's ['stop'] flag: the [while] condition
    ([LoopTest], also its entry point) or the [if ...: break] after the on
    period ([BreakTest]).  [th_wake] is the instant at which the thread is
    scheduled to evaluate that test. *)
Inductive Pc := LoopTest | BreakTest | Finished.

Record Thread := {
  th_motor : string;
  th_intensity : string;
  th_pattern : string;
  th_control : nat;
  th_pc : Pc;
  th_wake : Q
}.

(** [controls] is the store of the [alert_control] dictionaries: cell [c]
    holds the ['stop'] flag of the dictionary with reference [c], which is
    shared by [active_alerts] and by the thread it was handed to.  [clock]
    is the time of the calling (detection) thread, in seconds. *)
Record HapticController := {
  motors : Py.dict Z;
  active_alerts : gmap string nat;
  motor_states : gmap string bool;
  controls : list bool;
  threads : list Thread;
  clock : Q
}.

Definition init (config : Config.Config) : HapticController := {|
  motors := Config.HAPTIC_MOTORS config;
  active_alerts := ∅;
  motor_states :=
    list_to_map (map (fun '(name, _) => (name, false))
                     (Config.HAPTIC_MOTORS config));
  controls := [];
  threads := [];
  clock := 0
|}.

Definition is_motor (self : HapticController) (motor_name : string) : bool :=
  match Py.get (motors self) motor_name with
  | Some _ => true
  | None => false
  end.

Definition set_motor_state (self : HapticController) (motor_name : string)
    (on : bool) : HapticController := {|
  motors := motors self;
  active_alerts := active_alerts self;
  motor_states := <[motor_name := on]> (motor_states self);
  controls := controls self;
  threads := threads self;
  clock := clock self
|}.

Definition _motor_on (self : HapticController) (motor_name : string)
    (strength : Q) : HapticController :=
  if negb (is_motor self motor_name) then self
  else set_motor_state self motor_name true.

Definition _motor_off (self : HapticController) (motor_name : string)
    : HapticController :=
  if negb (is_motor self motor_name) then self
  else set_motor_state self motor_name false.

Definition _sensor_to_motor (sensor_name : string) : string :=
  let mapping : Py.dict string :=
    [ ("front_high", "front_upper");
      ("front_center", "front_center");
      ("front_low", "front_lower");
      ("left_side", "left");
      ("right_side", "right");
      ("ground_sensor", "front_lower") ] in
  default "front_center" (Py.get mapping sensor_name).

(** [patterns.get(pattern, (0.3, 0.3))] and
    [intensities.get(intensity, 0.6)]. *)
Definition patterns (pattern : string) : Q * Q :=
  default (0.3, 0.3)
    (Py.get [ ("rapid", (0.1, 0.1));
              ("pulse", (0.3, 0.3));
              ("intermittent", (0.2, 0.8)) ] pattern).

Definition intensities (intensity : string) : Q :=
  default 0.6
    (Py.get [ ("low", 0.3); ("medium", 0.6); ("high", 1.0) ] intensity).

(** [control['stop']] and [control['stop'] = True]. *)
Definition stop_flag (self : HapticController) (c : nat) : bool :=
  default false (controls self !! c).

Definition set_stop (self : HapticController) (c : nat) : HapticController := {|
  motors := motors self;
  active_alerts := active_alerts self;
  motor_states := motor_states self;
  controls := <[c := true]> (controls self);
  threads := threads self;
  clock := clock self
|}.

Definition set_thread (self : HapticController) (i : nat) (t : Thread)
    : HapticController := {|
  motors := motors self;
  active_alerts := active_alerts self;
  motor_states := motor_states self;
  controls := controls self;
  threads := <[i := t]> (threads self);
  clock := clock self
|}.

Definition move (t : Thread) (pc : Pc) (wake : Q) : Thread := {|
  th_motor := th_motor t;
  th_intensity := th_intensity t;
  th_pattern := th_pattern t;
  th_control := th_control t;
  th_pc := pc;
  th_wake := wake
|}.

(** One scheduling slice of [_vibrate_pattern] for thread [i]: from the test
    it is waiting at, up to its next [time.sleep] or to its end. *)
Definition _vibrate_pattern (self : HapticController) (i : nat)
    : HapticController :=
  match threads self !! i with
  | None => self
  | Some t =>
      let '(on_time, off_time) := patterns (th_pattern t) in
      let strength := intensities (th_intensity t) in
      match th_pc t with
      | LoopTest =>
          if stop_flag self (th_control t) then
            (* loop exit: ensure motor is off when done *)
            set_thread (_motor_off self (th_motor t)) i
              (move t Finished (th_wake t))
          else
            set_thread (_motor_on self (th_motor t) strength) i
              (move t BreakTest (th_wake t + on_time))
      | BreakTest =>
          if stop_flag self (th_control t) then
            (* break, then ensure motor is off when done *)
            set_thread (_motor_off self (th_motor t)) i
              (move t Finished (th_wake t))
          else
            set_thread (_motor_off self (th_motor t)) i
              (move t LoopTest (th_wake t + off_time))
      | Finished => self
      end
  end.

(** *** The scheduler behind [time.sleep]

    Statements take no time and a sleep lasts exactly its argument.  While
    the caller sleeps until [deadline], the vibration threads that are due
    run in the order of their wake-up instants. *)
Definition runnable (deadline : Q) (t : Thread) : bool :=
  match th_pc t with
  | Finished => false
  | _ => Qle_bool (th_wake t) deadline
  end.

Fixpoint pick (deadline : Q) (ts : list Thread) (i : nat)
    (best : option (nat * Q)) : option (nat * Q) :=
  match ts with
  | [] => best
  | t :: ts' =>
      let best' :=
        if runnable deadline t then
          match best with
          | Some (_, w) =>
              if Py.ltb (th_wake t) w then Some (i, th_wake t) else best
          | None => Some (i, th_wake t)
          end
        else best in
      pick deadline ts' (S i) best'
  end.

Fixpoint run_threads (fuel : nat) (deadline : Q) (self : HapticController)
    : HapticController :=
  match fuel with
  | O => self
  | S fuel' =>
      match pick deadline (threads self) 0 None with
      | None => self
      | Some (i, _) => run_threads fuel' deadline (_vibrate_pattern self i)
      end
  end.

(** Every sleep of a vibration thread lasts at least 0.1 s, so a thread
    that is due takes at most [1 + floor ((deadline - wake) * 10)] slices
    before [deadline]. *)
Definition slices (deadline : Q) (t : Thread) : nat :=
  if runnable deadline t
  then S (Z.to_nat (Qfloor ((deadline - th_wake t) * 10)))
  else O.

Definition budget (deadline : Q) (ts : list Thread) : nat :=
  foldr (fun t n => (slices deadline t + n)%nat) O ts.

Definition set_clock (self : HapticController) (now : Q) : HapticController := {|
  motors := motors self;
  active_alerts := active_alerts self;
  motor_states := motor_states self;
  controls := controls self;
  threads := threads self;
  clock := now
|}.

(** [time.sleep(seconds)] in the calling thread. *)
Definition sleep (seconds : Q) (self : HapticController) : HapticController :=
  let deadline := clock self + seconds in
  set_clock
    (run_threads (budget deadline (threads self)) deadline self) deadline.

(** [threading.Thread(target=self._vibrate_pattern, args=...).start()] with
    a fresh [alert_control = {'stop': False}], then
    [self.active_alerts[motor_name] = alert_control]. *)
Definition start_alert (self : HapticController)
    (motor_name intensity pattern : string) : HapticController :=
  let alert_control := length (controls self) in
  {| motors := motors self;
     active_alerts := <[motor_name := alert_control]> (active_alerts self);
     motor_states := motor_states self;
     controls := controls self ++ [false];
     threads := threads self ++
       [ {| th_motor := motor_name; th_intensity := intensity;
            th_pattern := pattern; th_control := alert_control;
            th_pc := LoopTest; th_wake := clock self |} ];
     clock := clock self |}.

Definition alert (self : HapticController)
    (sensor_name intensity pattern : string) : HapticController :=
  let motor_name := _sensor_to_motor sensor_name in
  if negb (is_motor self motor_name) then self
  else
    let self :=
      match active_alerts self !! motor_name with
      | Some c => sleep 0.05 (set_stop self c)
      | None => self
      end in
    start_alert self motor_name intensity pattern.

Definition stop (self : HapticController) (sensor_name : string)
    : HapticController :=
  let motor_name := _sensor_to_motor sensor_name in
  match active_alerts self !! motor_name with
  | Some c => _motor_off (set_stop self c) motor_name
  | None => self
  end.

(** The session table and the control store as the caller sees them:
    what a sleep of the caller leaves as it is. *)
Definition same_sessions (before after : HapticController) : Prop :=
  motors after = motors before /\
  active_alerts after = active_alerts before /\
  controls after = controls before /\
  length (threads after) = length (threads before).

(** The vibration threads that have not finished, per motor. *)
Definition live (t : Thread) : bool :=
  match th_pc t with Finished => false | _ => true end.

Definition live_sessions (self : HapticController) (motor_name : string)
    : list Thread :=
  filter (fun t => live t = true ∧ th_motor t = motor_name) (threads self).

(** [stop_all]: flag every registered session, sleep 0.1 s, switch every
    motor off and clear the session table.  Setting the flags commutes, so
    the order in which the keys are visited does not matter. *)
Definition stop_all (self : HapticController) : HapticController :=
  let self :=
    fold_left (fun h entry => set_stop h entry.2)
              (map_to_list (active_alerts self)) self in
  let self := sleep 0.1 self in
  let self :=
    fold_left (fun h entry => _motor_off h entry.1) (motors self) self in
  {| motors := motors self;
     active_alerts := ∅;
     motor_states := motor_states self;
     controls := controls self;
     threads := threads self;
     clock := clock self |}.

(** The sessions of a motor that are live and have not been told to stop. *)
Definition running_sessions (self : HapticController) (motor_name : string)
    : list Thread :=
  filter (fun t => live t = true /\ th_motor t = motor_name /\
                   stop_flag self (th_control t) = false)
         (threads self).

(** Every live session of the motor has been told to stop. *)
Definition quiet (self : HapticController) (motor_name : string) : Prop :=
  forall t, In t (threads self) -> live t = true -> th_motor t = motor_name ->
            stop_flag self (th_control t) = true.

(** The bookkeeping that [alert], [stop], [stop_all] and the vibration
    threads maintain: thread [i] owns control [i]; a live session whose flag
    is down is the one registered for its motor; registered controls exist
    and belong to configured motors. *)
Definition well_formed (self : HapticController) : Prop :=
  length (controls self) = length (threads self) /\
  (forall i t, threads self !! i = Some t -> th_control t = i) /\
  (forall t, In t (threads self) -> live t = true ->
             stop_flag self (th_control t) = false ->
             active_alerts self !! th_motor t = Some (th_control t)) /\
  (forall m c, active_alerts self !! m = Some c ->
               (c < length (controls self))%nat /\ is_motor self m = true).

End HapticController.

(** ** main.py *)

Module PathSense.

(** The components of [PathSense] together with the two locals that
    [_detection_loop] carries from one iteration to the next
    ([calibration_count] and [sensor_history]).  The data logger only
    writes files and is left out. *)
Record PathSense := {
  config : Config.Config;
  haptic_controller : HapticController.HapticController;
  ground_detector : GroundDetector.GroundDetector;
  winter_optimizer : WinterOptimizer.WinterOptimizer;
  total_detections : nat;
  calibration_count : nat;
  sensor_history : gmap string (list Q)
}.

Definition init (config : Config.Config) : PathSense := {|
  config := config;
  haptic_controller := HapticController.init config;
  ground_detector := GroundDetector.init config;
  winter_optimizer := WinterOptimizer.init config;
  total_detections := 0;
  calibration_count := 0;
  sensor_history :=
    list_to_map (map (fun '(name, _) => (name, [])) (Config.SENSORS config))
|}.

Definition with_haptic (self : PathSense)
    (h : HapticController.HapticController) (detections : nat) : PathSense := {|
  config := config self;
  haptic_controller := h;
  ground_detector := ground_detector self;
  winter_optimizer := winter_optimizer self;
  total_detections := detections;
  calibration_count := calibration_count self;
  sensor_history := sensor_history self
|}.

(** [SensorController.read_all_sensors]: one reading per configured sensor,
    the ground sensor last.  [read_sensor] is the hardware (or simulated)
    read of one tick. *)
Definition read_all_sensors (config : Config.Config)
    (read_sensor : string -> option Q) : Py.dict (option Q) :=
  map (fun sensor_name => (sensor_name, read_sensor sensor_name))
      (map fst (Config.SENSORS config) ++ ["ground_sensor"]).

Definition _process_obstacle (self : PathSense) (sensor_name : string)
    (distance : Q) : PathSense :=
  match WinterOptimizer.adjust_for_temperature
          (winter_optimizer self) (Some distance) None with
  | None => self
  | Some distance =>
      let h := haptic_controller self in
      if Py.ltb distance (Config.DANGER_ZONE (config self)) then
        with_haptic self (HapticController.alert h sensor_name "high" "rapid")
          (S (total_detections self))
      else if Py.ltb distance (Config.WARNING_ZONE (config self)) then
        with_haptic self (HapticController.alert h sensor_name "medium" "pulse")
          (total_detections self)
      else if Py.ltb distance (Config.ALERT_ZONE (config self)) then
        with_haptic self
          (HapticController.alert h sensor_name "low" "intermittent")
          (total_detections self)
      else
        with_haptic self (HapticController.stop h sensor_name)
          (total_detections self)
  end.

Definition _process_ground_hazard (self : PathSense)
    (hazard : GroundDetector.Hazard) : PathSense :=
  let h := haptic_controller self in
  if String.eqb (GroundDetector.severity hazard) "critical" then
    with_haptic self (HapticController.alert h "front_lower" "high" "rapid")
      (total_detections self)
  else if String.eqb (GroundDetector.severity hazard) "warning" then
    with_haptic self (HapticController.alert h "front_lower" "medium" "pulse")
      (total_detections self)
  else
    with_haptic self
      (HapticController.alert h "front_lower" "low" "intermittent")
      (total_detections self).

(** [for sensor_name, distance in sensor_data.items(): ...] of the history
    update: a present reading is appended and the last 5 are kept. *)
Definition update_history (sensor_data : Py.dict (option Q))
    (sensor_history : gmap string (list Q)) : gmap string (list Q) :=
  fold_left
    (fun history '(sensor_name, distance) =>
       match distance with
       | None => history
       | Some d =>
           <[sensor_name :=
               Py.last_n 5 (default [] (history !! sensor_name) ++ [d])]>
             history
       end)
    sensor_data sensor_history.

(** The loop over the upper-body readings. *)
Definition process_obstacles (sensor_data : Py.dict (option Q))
    (self : PathSense) : PathSense :=
  fold_left
    (fun self '(sensor_name, distance) =>
       match distance with
       | Some d =>
           if negb (String.eqb sensor_name "ground_sensor")
           then _process_obstacle self sensor_name d
           else self
       | None => self
       end)
    sensor_data self.

(** ['ground_sensor' in sensor_data and sensor_data['ground_sensor']]. *)
Definition ground_reading (sensor_data : Py.dict (option Q)) : option Q :=
  match Py.get sensor_data "ground_sensor" with
  | Some r => if Py.truthy r then r else None
  | None => None
  end.

(** One iteration of the [while self.running] loop of [_detection_loop],
    for the readings [read_sensor] of that tick.  No statement of the body
    raises on these data, so the [except] branch is not taken. *)
Definition tick (self : PathSense) (read_sensor : string -> option Q)
    : PathSense :=
  let sensor_data := read_all_sensors (config self) read_sensor in
  (* ground sensor calibration *)
  let '(detector, count) :=
    if negb (GroundDetector.calibrated (ground_detector self))
       && (calibration_count self <? 50)%nat
    then
      match ground_reading sensor_data with
      | Some _ =>
          (GroundDetector.calibrate (ground_detector self) sensor_data,
           S (calibration_count self))
      | None => (ground_detector self, calibration_count self)
      end
    else (ground_detector self, calibration_count self) in
  (* winter optimizations *)
  let sensor_data :=
    if Config.SNOW_FILTER_ENABLED (config self)
    then WinterOptimizer.filter_snow_particles
           (winter_optimizer self) sensor_data (sensor_history self)
    else sensor_data in
  (* sensor history *)
  let history := update_history sensor_data (sensor_history self) in
  let self :=
    {| config := config self;
       haptic_controller := haptic_controller self;
       ground_detector := detector;
       winter_optimizer := winter_optimizer self;
       total_detections := total_detections self;
       calibration_count := count;
       sensor_history := history |} in
  (* upper-body obstacles *)
  let self := process_obstacles sensor_data self in
  (* ground hazards *)
  let self :=
    match ground_reading sensor_data with
    | Some ground =>
        match GroundDetector.detect_hazard (ground_detector self)
                (Some ground) with
        | Some hazard => _process_ground_hazard self hazard
        | None => self
        end
    | None => self
    end in
  (* time.sleep(SCAN_INTERVAL) *)
  with_haptic self
    (HapticController.sleep (Config.SCAN_INTERVAL (config self))
       (haptic_controller self))
    (total_detections self).

(** Every history list holds at most 5 readings. *)
Definition bounded (history : gmap string (list Q)) : Prop :=
  forall s l, history !! s = Some l -> (length l <= 5)%nat.

(** The reading of [sensor_name] that reaches the history update of a
    tick: the sensor's reading, or what the snow filter makes of it. *)
Definition accepted (self : PathSense) (read_sensor : string -> option Q)
    (sensor_name : string) : option Q :=
  if Config.SNOW_FILTER_ENABLED (config self)
     && WinterOptimizer.snow_filter_enabled (winter_optimizer self)
  then WinterOptimizer.filter_reading (sensor_history self) sensor_name
         (read_sensor sensor_name)
  else read_sensor sensor_name.

(** Dictionaries whose readings are all absent. *)
Definition all_absent (sensor_data : Py.dict (option Q)) : Prop :=
  Forall (fun entry => entry.2 = None) sensor_data.

(** A step that keeps the bookkeeping of the haptic controller and its
    motors. *)
Definition kept (self self' : PathSense) : Prop :=
  HapticController.well_formed (haptic_controller self') /\
  HapticController.motors (haptic_controller self')
    = HapticController.motors (haptic_controller self).

(** Dictionaries in which no upper-body sensor has a reading. *)
Definition upper_absent (sensor_data : Py.dict (option Q)) : Prop :=
  Forall (fun entry => entry.1 = "ground_sensor" \/ entry.2 = None) sensor_data.

(** What the obstacle and hazard processing of a tick leaves as it is. *)
Definition same_setup (before after : PathSense) : Prop :=
  config after = config before /\
  winter_optimizer after = winter_optimizer before /\
  ground_detector after = ground_detector before /\
  sensor_history after = sensor_history before /\
  calibration_count after = calibration_count before.

(** The readings of a tick that raise [total_detections]: a present
    upper-body reading whose conditioned value is in the Danger zone. *)
Definition is_danger (self : PathSense) (entry : string * option Q) : bool :=
  match entry.2 with
  | Some d =>
      negb (String.eqb entry.1 "ground_sensor")
      && match WinterOptimizer.adjust_for_temperature
                 (winter_optimizer self) (Some d) None with
         | Some conditioned =>
             Py.ltb conditioned (Config.DANGER_ZONE (config self))
         | None => false
         end
  | None => false
  end.

(** The readings handed to the history update and to the processing of a
    tick. *)
Definition filtered_data (self : PathSense) (read_sensor : string -> option Q)
    : Py.dict (option Q) :=
  if Config.SNOW_FILTER_ENABLED (config self)
  then WinterOptimizer.filter_snow_particles (winter_optimizer self)
         (read_all_sensors (config self) read_sensor) (sensor_history self)
  else read_all_sensors (config self) read_sensor.

(** The ground detector after the calibration step of a tick. *)
Definition calibration_step (self : PathSense)
    (read_sensor : string -> option Q) : GroundDetector.GroundDetector :=
  if negb (GroundDetector.calibrated (ground_detector self))
     && (calibration_count self <? 50)%nat
  then
    match ground_reading (read_all_sensors (config self) read_sensor) with
    | Some _ =>
        GroundDetector.calibrate (ground_detector self)
          (read_all_sensors (config self) read_sensor)
    | None => ground_detector self
    end
  else ground_detector self.

(** The detection loop over the readings of successive ticks. *)
Definition _detection_loop (self : PathSense)
    (ticks : list (string -> option Q)) : PathSense :=
  fold_left tick ticks self.

End PathSense.

(** ** sensor_controller.py *)

Module SensorController.



End SensorController.

(** ** Concrete runs *)

Module Scenario.

(** A tick in which only [front_center] returns a reading. *)
Definition only_front_center (reading : option Q) : string -> option Q :=
  fun sensor_name =>
    if String.eqb sensor_name "front_center" then reading else None.

(** A tick in which only the ground sensor returns a reading. *)
Definition only_ground (reading : option Q) : string -> option Q :=
  fun sensor_name =>
    if String.eqb sensor_name "ground_sensor" then reading else None.

(** The ground detector fed with the ground readings [samples], one
    [calibrate] call per reading. *)
Definition feed (detector : GroundDetector.GroundDetector) (ground : Q)
    : GroundDetector.GroundDetector :=
  GroundDetector.calibrate detector [("ground_sensor", Some ground)].

Definition calibrated_on (samples : list Q) : GroundDetector.GroundDetector :=
  fold_left feed samples (GroundDetector.init Config.default).

(** Fifty samples of flat ground at 1.00 m. *)
Definition flat_ground : list Q := repeat 1.00 50.

(** Fifty distinct samples spread uniformly over 0.76 .. 1.25, fed from
    both ends towards the middle. *)
Definition spread_ground : list Q :=
  flat_map (fun i : nat =>
              [ inject_Z (Z.of_nat (76 + i)) / 100;
                inject_Z (Z.of_nat (125 - i)) / 100 ])
           (seq 0 25).

(** The system as started, and after a walk over flat ground at 1.00 m
    that lasts the 50 ticks of the calibration. *)
Definition started : PathSense.PathSense := PathSense.init Config.default.

Definition walked_flat : PathSense.PathSense :=
  PathSense._detection_loop started (repeat (only_ground (Some 1.00)) 50).

(** An obstacle at chest height seen at 2.50 m (Alert zone) on the first
    tick. *)
Definition alerting : PathSense.PathSense :=
  PathSense.tick started (only_front_center (Some 2.50)).

(** An obstacle at chest height seen at 0.30 m (Danger zone) on the first
    tick. *)
Definition in_danger : PathSense.PathSense :=
  PathSense.tick started (only_front_center (Some 0.30)).

(** The chest sensor sees nothing within 3.5 m for three ticks, then an
    obstacle at 1.0 m. *)
Definition jumped : PathSense.PathSense :=
  PathSense._detection_loop started
    (map (fun d => only_front_center (Some d)) [3.5; 3.5; 3.5; 1.0]).

End Scenario.

(** ** The noise filter and the zones as the specification words them *)

Module Spec.

(** Population variance: the mean of the squared deviations from the
    mean. *)
Definition population_variance (l : list Q) : Q :=
  let n := Py.len l in
  let mean := Py.sum l / n in
  Py.sum (map (fun x => (x - mean) ^ 2) l) / n.

(** All the readings of [l] lie within a band of the given width
    (max minus min below the width). *)
Definition within_band (width : Q) (l : list Q) : Prop :=
  forall x y, In x l -> In y l -> x - y < width.

(** The absolute difference of the two most recent entries exceeds
    [bound]. *)
Definition rate_exceeds (bound : Q) (history : list Q) : Prop :=
  exists older previous latest,
    history = older ++ [previous; latest] /\ bound < Qabs (latest - previous).

Definition erratic (history : list Q) : Prop :=
  0.4 < population_variance history \/ rate_exceeds 0.5 history.

(** [noise_filter history current out]: the filter maps [current] to
    [out] for a sensor whose history is [history]. *)
Inductive noise_filter (history : list Q) : option Q -> option Q -> Prop :=
| pass_absent :
    noise_filter history None None
| pass_short current :
    (length history < 3)%nat ->
    noise_filter history (Some current) (Some current)
| pass_consistent current :
    (3 <= length history)%nat ->
    erratic history ->
    within_band 0.20 (Py.last_n 3 history ++ [current]) ->
    noise_filter history (Some current) (Some current)
| suppress current :
    (3 <= length history)%nat ->
    erratic history ->
    ~ within_band 0.20 (Py.last_n 3 history ++ [current]) ->
    noise_filter history (Some current) None
| pass_steady current :
    (3 <= length history)%nat ->
    ~ erratic history ->
    noise_filter history (Some current) (Some current).

(** The zone classifier and the per-channel transitions of the alert
    orchestrator. *)
Inductive Zone := Clear | Alert | Warning | Danger.

Definition classify (reading : option Q) : Zone :=
  match reading with
  | None => Clear
  | Some distance =>
      if Py.ltb distance 0.5 then Danger
      else if Py.ltb distance 1.5 then Warning
      else if Py.ltb distance 3.0 then Alert
      else Clear
  end.

Definition transition (zone : Zone) (sensor_name : string)
    (orchestrator : HapticController.HapticController)
    : HapticController.HapticController :=
  match zone with
  | Danger => HapticController.alert orchestrator sensor_name "high" "rapid"
  | Warning => HapticController.alert orchestrator sensor_name "medium" "pulse"
  | Alert =>
      HapticController.alert orchestrator sensor_name "low" "intermittent"
  | Clear => HapticController.stop orchestrator sensor_name
  end.

End Spec.

(** * Properties *)

(** ** Comparisons and rounding *)

Lemma ltb_lt (a b : Q) : Py.ltb a b = true <-> a < b.
Proof.
  unfold Py.ltb. rewrite negb_true_iff, <- not_true_iff_false, Qle_bool_iff.
  split; [apply Qnot_le_lt | apply Qlt_not_le].
Qed.

Lemma ltb_ge (a b : Q) : Py.ltb a b = false <-> b <= a.
Proof.
  unfold Py.ltb. rewrite negb_false_iff. apply Qle_bool_iff.
Qed.

Ltac ltb_case a b H :=
  destruct (Py.ltb a b) eqn:H;
  [apply ltb_lt in H | apply ltb_ge in H].

(** The integer chosen by [round_half_even] is a nearest one. *)
Lemma round_half_even_near (x : Q) :
  Qabs (inject_Z (Py.round_half_even x) - x) <= 1 # 2.
Proof.
  unfold Py.round_half_even.
  pose proof (Qfloor_le x) as Hlo.
  pose proof (Qlt_floor x) as Hhi.
  rewrite inject_Z_plus in Hhi. change (inject_Z 1) with 1 in Hhi.
  apply Qabs_Qle_condition.
  destruct (Qcompare (x - inject_Z (Qfloor x)) (1 # 2)) eqn:Hc.
  - apply Qeq_alt in Hc.
    destruct (Z.even (Qfloor x));
      rewrite ?inject_Z_plus; change (inject_Z 1) with 1; lra.
  - apply Qlt_alt in Hc. lra.
  - apply Qgt_alt in Hc. rewrite inject_Z_plus. change (inject_Z 1) with 1. lra.
Qed.


(** ** Signal conditioner *)


(** ** Ground hazard classifier *)

Lemma detect_hazard_uncalibrated (self : GroundDetector.GroundDetector)
    (reading : option Q) :
  GroundDetector.calibrated self = false ->
  GroundDetector.detect_hazard self reading = None.
Proof. unfold GroundDetector.detect_hazard. intros ->. reflexivity. Qed.





(** C10: every drop-off returned by the classifier has a depth strictly
    greater than 0.15, so the "Small depression" bucket of [_classify_drop]
    is never reported: the description is one of the four other buckets. *)
Theorem drop_off_depth_above_pothole_threshold
    (self : GroundDetector.GroundDetector) (reading : option Q)
    (depth : Q) (severity description : string) :
  GroundDetector.config self = Config.default ->
  GroundDetector.detect_hazard self reading =
    Some (GroundDetector.drop_off depth severity description) ->
  0.15 < depth /\
  description <> "Small depression" /\
  (description = "Pothole detected" \/
   description = "Curb or step down" \/
   description = "Large drop-off" \/
   description = "Stairs or major drop - DANGER").
Proof.
  intros Hcfg. unfold GroundDetector.detect_hazard. rewrite Hcfg.
  destruct (GroundDetector.calibrated self); [|discriminate].
  destruct reading as [current|]; [|discriminate].
  destruct (GroundDetector.baseline_distance self) as [baseline|];
    [|discriminate].
  cbn [Config.POTHOLE_THRESHOLD Config.CURB_THRESHOLD
       Config.MAJOR_DROP_THRESHOLD Config.default].
  set (deviation := current - baseline).
  ltb_case 0.15 deviation H1.
  - intros [= <- _ <-]. split; [exact H1|].
    unfold GroundDetector._classify_drop.
    ltb_case deviation 0.15 H2; [lra|].
    ltb_case deviation 0.20 H3; [split; [discriminate | tauto]|].
    ltb_case deviation 0.30 H4; [split; [discriminate | tauto]|].
    ltb_case deviation 0.50 H5; (split; [intros [=] | tauto]).
  - repeat case_match; discriminate.
Qed.

Lemma drop_off_depth_above_pothole_threshold_witness :
  0.15 < 1.35 - Py.sum (repeat 1.00 40) / Py.len (repeat 1.00 40).
Proof.
  refine (proj1
    (drop_off_depth_above_pothole_threshold
       (Scenario.calibrated_on Scenario.flat_ground) (Some 1.35)
       _ "critical" "Large drop-off" _ _)); vm_compute; reflexivity.
Defined.

(** ** Noise filter *)

Lemma fold_max_spec (xs : list Q) (m : Q) :
  let r := fold_left (fun m y => if Py.ltb m y then y else m) xs m in
  (r = m \/ In r xs) /\ m <= r /\ Forall (fun x => x <= r) xs.
Proof.
  revert m. induction xs as [|y xs IH]; intros m; simpl.
  - split; [by left|]. split; [apply Qle_refl | constructor].
  - ltb_case m y Hmy.
    + destruct (IH y) as (Hin & Hle & Hall).
      split; [right; destruct Hin as [-> | Hin]; auto|].
      split; [lra|]. constructor; assumption.
    + destruct (IH m) as (Hin & Hle & Hall).
      split; [destruct Hin as [-> | Hin]; auto|].
      split; [assumption|]. constructor; [lra | assumption].
Qed.

Lemma fold_min_spec (xs : list Q) (m : Q) :
  let r := fold_left (fun m y => if Py.ltb y m then y else m) xs m in
  (r = m \/ In r xs) /\ r <= m /\ Forall (fun x => r <= x) xs.
Proof.
  revert m. induction xs as [|y xs IH]; intros m; simpl.
  - split; [by left|]. split; [apply Qle_refl | constructor].
  - ltb_case y m Hym.
    + destruct (IH y) as (Hin & Hle & Hall).
      split; [right; destruct Hin as [-> | Hin]; auto|].
      split; [lra|]. constructor; assumption.
    + destruct (IH m) as (Hin & Hle & Hall).
      split; [destruct Hin as [-> | Hin]; auto|].
      split; [assumption|]. constructor; [lra | assumption].
Qed.

Lemma max_spec (l : list Q) :
  l <> [] -> In (Py.max l) l /\ (forall x, In x l -> x <= Py.max l).
Proof.
  destruct l as [|x xs]; [done|]. intros _. unfold Py.max.
  destruct (fold_max_spec xs x) as (Hin & Hle & Hall).
  rewrite List.Forall_forall in Hall.
  split.
  - destruct Hin as [-> | Hin]; [by left | by right].
  - intros y [<- | Hy]; auto.
Qed.

Lemma min_spec (l : list Q) :
  l <> [] -> In (Py.min l) l /\ (forall x, In x l -> Py.min l <= x).
Proof.
  destruct l as [|x xs]; [done|]. intros _. unfold Py.min.
  destruct (fold_min_spec xs x) as (Hin & Hle & Hall).
  rewrite List.Forall_forall in Hall.
  split.
  - destruct Hin as [-> | Hin]; [by left | by right].
  - intros y [<- | Hy]; auto.
Qed.

(** [max - min < width] says that the whole list fits in the band. *)
Lemma span_within_band (width : Q) (l : list Q) :
  l <> [] ->
  Py.ltb (Py.max l - Py.min l) width = true <-> Spec.within_band width l.
Proof.
  intros Hne. rewrite ltb_lt.
  destruct (max_spec l Hne) as [Hmax_in Hmax].
  destruct (min_spec l Hne) as [Hmin_in Hmin].
  split.
  - intros Hspan x y Hx Hy. specialize (Hmax x Hx). specialize (Hmin y Hy). lra.
  - intros Hband. by apply Hband.
Qed.

Lemma is_consistent_obstacle_spec (history : list Q) (current : Q) :
  (3 <= length history)%nat ->
  WinterOptimizer._is_consistent_obstacle history current = true
  <-> Spec.within_band 0.20 (Py.last_n 3 history ++ [current]).
Proof.
  intros Hlen. unfold WinterOptimizer._is_consistent_obstacle.
  destruct (Nat.ltb_spec (length history) 3) as [?|_]; [lia|].
  rewrite <- span_within_band by (by destruct (Py.last_n 3 history)).
  rewrite !ltb_lt. split; lra.
Qed.

Lemma omap_id_Some {A} (l : list A) : omap id (map Some l) = l.
Proof. induction l as [|x l IH]; [done | by rewrite <- IH at 2]. Qed.

Lemma calculate_variance_spec (history : list Q) :
  (2 <= length history)%nat ->
  WinterOptimizer._calculate_variance (map Some history)
  = Spec.population_variance history.
Proof.
  intros Hlen. unfold WinterOptimizer._calculate_variance.
  rewrite omap_id_Some, length_map.
  destruct (Nat.ltb_spec (length history) 2) as [?|_]; [lia | reflexivity].
Qed.

Lemma rate_of_change_spec (bound : Q) (history : list Q) :
  (2 <= length history)%nat ->
  bound < WinterOptimizer.rate_of_change history
  <-> Spec.rate_exceeds bound history.
Proof.
  intros Hlen. unfold WinterOptimizer.rate_of_change, Spec.rate_exceeds.
  destruct (rev history) as [|latest [|previous older]] eqn:Hrev.
  - apply (f_equal (@length Q)) in Hrev. rewrite length_rev in Hrev.
    simpl in Hrev. lia.
  - apply (f_equal (@length Q)) in Hrev. rewrite length_rev in Hrev.
    simpl in Hrev. lia.
  - assert (Hh : history = rev older ++ [previous; latest]).
    { rewrite <- (rev_involutive history), Hrev. simpl.
      by rewrite <- !app_assoc. }
    split.
    + intros Hb. by exists (rev older), previous, latest.
    + intros (older' & previous' & latest' & Heq & Hb).
      rewrite Hh in Heq.
      change [previous; latest] with ([previous] ++ [latest]) in Heq.
      change [previous'; latest'] with ([previous'] ++ [latest']) in Heq.
      rewrite !app_assoc in Heq.
      apply app_inj_tail in Heq as [Heq ->].
      apply app_inj_tail in Heq as [_ ->]. exact Hb.
Qed.

Lemma erratic_spec (history : list Q) :
  (3 <= length history)%nat ->
  Py.ltb 0.4 (WinterOptimizer._calculate_variance (map Some history))
    || Py.ltb 0.5 (WinterOptimizer.rate_of_change history) = true
  <-> Spec.erratic history.
Proof.
  intros Hlen. unfold Spec.erratic.
  rewrite orb_true_iff, !ltb_lt, calculate_variance_spec by lia.
  by rewrite rate_of_change_spec by lia.
Qed.

Lemma filter_reading_spec (history_buffer : gmap string (list Q))
    (sensor_name : string) (current : option Q) :
  Spec.noise_filter (default [] (history_buffer !! sensor_name)) current
    (WinterOptimizer.filter_reading history_buffer sensor_name current).
Proof.
  unfold WinterOptimizer.filter_reading.
  destruct current as [current|]; [|constructor].
  set (history := default [] (history_buffer !! sensor_name)).
  destruct (Nat.ltb_spec (length history) 3) as [Hshort|Hlen].
  { by apply Spec.pass_short. }
  destruct (Py.ltb 0.4 _ || Py.ltb 0.5 _) eqn:Herr.
  - apply erratic_spec in Herr; [|exact Hlen].
    destruct (WinterOptimizer._is_consistent_obstacle history current) eqn:Hc.
    + apply Spec.pass_consistent; auto.
      by apply is_consistent_obstacle_spec.
    + apply Spec.suppress; auto.
      rewrite <- is_consistent_obstacle_spec by exact Hlen. by rewrite Hc.
  - apply Spec.pass_steady; [exact Hlen|].
    rewrite <- erratic_spec by exact Hlen. by rewrite Herr.
Qed.


(** The filter on the histories [1.0; 1.02; 0.98], [1.0; 2.0; 0.5] and
    [1.0; 1.05; 0.95]. *)
Example filter_reading_examples :
  WinterOptimizer.filter_reading {["s" := [1.0; 1.02; 0.98]]} "s" (Some 1.01)
    = Some 1.01 /\
  WinterOptimizer.filter_reading {["s" := [1.0; 2.0; 0.5]]} "s" (Some 3.0)
    = None /\
  WinterOptimizer.filter_reading {["s" := [1.0; 1.05; 0.95]]} "s" (Some 1.02)
    = Some 1.02.
Proof. vm_compute. repeat split; reflexivity. Qed.

(** ** Ground calibrator *)

#[local] Instance Qle_total : Total Qle.
Proof.
  intros x y. destruct (Qlt_le_dec x y) as [H|H]; [left | right]; lra.
Qed.

#[local] Instance Qle_transitive : Transitive Qle.
Proof. intros x y z. apply Qle_trans. Qed.




Lemma sum_constant (c : Q) (l : list Q) (acc : Q) :
  Forall (fun x => x == c) l ->
  fold_left Qplus l acc == acc + Py.len l * c.
Proof.
  unfold Py.len. revert acc. induction l as [|x l IH]; intros acc Hall.
  - cbn. change (inject_Z 0) with 0. ring.
  - inversion Hall as [|? ? Hx Hl]; subst. cbn [fold_left].
    rewrite IH by exact Hl. rewrite Hx.
    cbn [length]. rewrite Nat2Z.inj_succ, <- Z.add_1_r, inject_Z_plus.
    change (inject_Z 1) with 1. ring.
Qed.



(** Fifty distinct samples spread over 0.76 .. 1.25: the baseline is the
    mean 1.005 of the forty samples 0.81 .. 1.20. *)
Example spread_ground_baseline :
  exists baseline,
    GroundDetector.baseline_distance
      (Scenario.calibrated_on Scenario.spread_ground) = Some baseline /\
    baseline == 1.005 /\
    Py.trim 5 (Py.sorted Scenario.spread_ground)
    = map (fun i : nat => inject_Z (Z.of_nat (81 + i)) / 100) (seq 0 40).
Proof.
  eexists. split; [vm_compute; reflexivity|]. split; vm_compute; reflexivity.
Qed.

(** ** Alert orchestrator: what a sleep of the caller can change *)

Import HapticController.

Lemma same_sessions_refl (self : HapticController) : same_sessions self self.
Proof. by repeat split. Qed.

Lemma same_sessions_trans (a b c : HapticController) :
  same_sessions a b -> same_sessions b c -> same_sessions a c.
Proof.
  intros (? & ? & ? & ?) (? & ? & ? & ?). repeat split; congruence.
Qed.

Lemma motor_on_sessions (self : HapticController) (motor_name : string)
    (strength : Q) :
  same_sessions self (_motor_on self motor_name strength) /\
  threads (_motor_on self motor_name strength) = threads self.
Proof.
  unfold _motor_on. destruct (negb _); by repeat split.
Qed.

Lemma motor_off_sessions (self : HapticController) (motor_name : string) :
  same_sessions self (_motor_off self motor_name) /\
  threads (_motor_off self motor_name) = threads self.
Proof.
  unfold _motor_off. destruct (negb _); by repeat split.
Qed.

(** A slice of a vibration thread rewrites that thread's entry only. *)
Lemma vibrate_pattern_threads (self : HapticController) (i : nat) (t : Thread) :
  threads self !! i = Some t ->
  live t = true ->
  exists pc wake,
    threads (_vibrate_pattern self i) = <[i := move t pc wake]> (threads self) /\
    (pc = Finished \/ th_wake t + 0.1 <= wake).
Proof.
  intros Ht Hlive. unfold _vibrate_pattern. rewrite Ht.
  assert (Hpat : 0.1 <= (patterns (th_pattern t)).1 /\
                 0.1 <= (patterns (th_pattern t)).2).
  { unfold patterns. cbn [Py.get].
    repeat destruct (String.eqb _ _); simpl; split; lra. }
  destruct (patterns (th_pattern t)) as [on_time off_time].
  simpl in Hpat. destruct Hpat as [Hon Hoff].
  destruct (th_pc t) eqn:Hpc; [| |by unfold live in Hlive; rewrite Hpc in Hlive].
  - destruct (stop_flag self (th_control t)).
    + exists Finished, (th_wake t). cbn [set_thread threads].
      rewrite (proj2 (motor_off_sessions _ _)). auto.
    + exists BreakTest, (th_wake t + on_time). cbn [set_thread threads].
      rewrite (proj2 (motor_on_sessions _ _ _)). split; [done|right; lra].
  - destruct (stop_flag self (th_control t)).
    + exists Finished, (th_wake t). cbn [set_thread threads].
      rewrite (proj2 (motor_off_sessions _ _)). auto.
    + exists LoopTest, (th_wake t + off_time). cbn [set_thread threads].
      rewrite (proj2 (motor_off_sessions _ _)). split; [done|right; lra].
Qed.

Lemma vibrate_pattern_sessions (self : HapticController) (i : nat) :
  same_sessions self (_vibrate_pattern self i).
Proof.
  unfold _vibrate_pattern.
  destruct (threads self !! i) as [t|]; [|apply same_sessions_refl].
  destruct (patterns (th_pattern t)) as [on_time off_time].
  destruct (th_pc t); [| |apply same_sessions_refl];
    destruct (stop_flag self (th_control t));
    match goal with
    | |- same_sessions _ (set_thread (_motor_off ?s ?m) _ _) =>
        destruct (motor_off_sessions s m) as [(? & ? & ? & ?) Hth]
    | |- same_sessions _ (set_thread (_motor_on ?s ?m ?k) _ _) =>
        destruct (motor_on_sessions s m k) as [(? & ? & ? & ?) Hth]
    end;
    repeat split; cbn [set_thread motors active_alerts controls threads];
    try assumption; by rewrite length_insert, Hth.
Qed.

Lemma run_threads_sessions (fuel : nat) (deadline : Q) (self : HapticController) :
  same_sessions self (run_threads fuel deadline self).
Proof.
  revert self. induction fuel as [|fuel IH]; intros self; simpl.
  - apply same_sessions_refl.
  - destruct (pick deadline (threads self) 0 None) as [[i w]|];
      [|apply same_sessions_refl].
    eapply same_sessions_trans; [apply vibrate_pattern_sessions | apply IH].
Qed.

Lemma sleep_sessions (seconds : Q) (self : HapticController) :
  same_sessions self (sleep seconds self) /\
  clock (sleep seconds self) = clock self + seconds.
Proof.
  unfold sleep. split; [|reflexivity].
  destruct (run_threads_sessions
              (budget (clock self + seconds) (threads self))
              (clock self + seconds) self) as (? & ? & ? & ?).
  by repeat split.
Qed.

(** *** The scheduler runs every thread that is due *)

Lemma pick_best (deadline : Q) (ts : list Thread) (i : nat) (b : nat * Q) :
  pick deadline ts i (Some b) <> None.
Proof.
  revert i b. induction ts as [|t ts IH]; intros i b; simpl; [done|].
  destruct (runnable deadline t); [|apply IH].
  destruct b as [j w]. destruct (Py.ltb (th_wake t) w); apply IH.
Qed.

Lemma pick_None (deadline : Q) (ts : list Thread) (i : nat)
    (best : option (nat * Q)) :
  pick deadline ts i best = None ->
  best = None /\ Forall (fun t => runnable deadline t = false) ts.
Proof.
  revert i best. induction ts as [|t ts IH]; intros i best; simpl.
  - intros ->. by split.
  - destruct (runnable deadline t) eqn:Hrun.
    + destruct best as [[j w]|].
      * destruct (Py.ltb (th_wake t) w); intros H; by apply pick_best in H.
      * intros H. by apply pick_best in H.
    + intros H. destruct (IH _ _ H) as [-> Hall]. split; [done|].
      by constructor.
Qed.

Lemma pick_Some (deadline : Q) (ts : list Thread) (i : nat)
    (best : option (nat * Q)) (j : nat) (w : Q) :
  pick deadline ts i best = Some (j, w) ->
  best = Some (j, w) \/
  exists t, ts !! (j - i)%nat = Some t /\ (i <= j)%nat /\
            runnable deadline t = true.
Proof.
  revert i best. induction ts as [|t ts IH]; intros i best; simpl.
  - intros ->. by left.
  - intros H. apply IH in H as [H | (t' & Hlook & Hle & Hrun)].
    + destruct (runnable deadline t) eqn:Hrun; [|by left].
      assert (Hhere : Some (i, th_wake t) = Some (j, w) ->
                best = Some (j, w) \/
                exists t0, (t :: ts) !! (j - i)%nat = Some t0 /\ (i <= j)%nat /\
                           runnable deadline t0 = true).
      { intros [= <- <-]. right. exists t. rewrite Nat.sub_diag. by repeat split. }
      destruct best as [[j0 w0]|]; [|by apply Hhere].
      destruct (Py.ltb (th_wake t) w0); [by apply Hhere | by left].
    + right. exists t'. replace (j - i)%nat with (S (j - S i)) by lia.
      split; [exact Hlook|]. split; [lia | exact Hrun].
Qed.

Lemma runnable_live (deadline : Q) (t : Thread) :
  runnable deadline t = true -> live t = true.
Proof. unfold runnable, live. by destruct (th_pc t). Qed.

Lemma slices_runnable (deadline : Q) (t : Thread) :
  runnable deadline t = true -> (0 < slices deadline t)%nat.
Proof. unfold slices. intros ->. lia. Qed.

(** A slice uses up at least one unit of the thread's budget. *)
Lemma slices_move (deadline : Q) (t : Thread) (pc : Pc) (wake : Q) :
  runnable deadline t = true ->
  pc = Finished \/ th_wake t + 0.1 <= wake ->
  (slices deadline (move t pc wake) < slices deadline t)%nat.
Proof.
  intros Hrun Hstep. unfold slices at 2. rewrite Hrun.
  unfold slices. destruct (runnable deadline (move t pc wake)) eqn:Hrun';
    [|lia].
  destruct Hstep as [-> | Hwake]; [discriminate|].
  unfold runnable in Hrun'. cbn [move th_pc th_wake] in *.
  assert (Hdue : wake <= deadline).
  { destruct pc; [by apply Qle_bool_iff..|discriminate]. }
  apply -> Nat.succ_lt_mono. apply Z2Nat.inj_lt.
  - rewrite <- (Qfloor_Z 0). apply Qfloor_resp_le.
    change (inject_Z 0) with 0. lra.
  - rewrite <- (Qfloor_Z 0). apply Qfloor_resp_le.
    change (inject_Z 0) with 0. lra.
  - pose proof (Qfloor_le ((deadline - wake) * 10)) as Hlo.
    pose proof (Qlt_floor ((deadline - th_wake t) * 10)) as Hhi.
    rewrite inject_Z_plus in Hhi. change (inject_Z 1) with 1 in Hhi.
    rewrite Zlt_Qlt. lra.
Qed.

Lemma budget_insert (deadline : Q) (ts : list Thread) (i : nat) (t t' : Thread) :
  ts !! i = Some t ->
  (budget deadline (<[i := t']> ts) + slices deadline t
   = budget deadline ts + slices deadline t')%nat.
Proof.
  revert i. induction ts as [|x ts IH]; intros i; [done|].
  destruct i as [|i].
  - intros [= ->]. change (<[0%nat := t']> (t :: ts)) with (t' :: ts).
    unfold budget. cbn [foldr]. lia.
  - intros H. change (<[S i := t']> (x :: ts)) with (x :: <[i := t']> ts).
    specialize (IH i H). unfold budget in *. cbn [foldr]. lia.
Qed.

Lemma budget_zero (deadline : Q) (ts : list Thread) :
  budget deadline ts = 0%nat ->
  Forall (fun t => runnable deadline t = false) ts.
Proof.
  induction ts as [|t ts IH]; simpl; [constructor|].
  intros H. constructor; [|apply IH; lia].
  destruct (runnable deadline t) eqn:Hrun; [|done].
  apply slices_runnable in Hrun. lia.
Qed.

(** With [budget] slices of fuel no thread is left due at the deadline. *)
Lemma run_threads_quiescent (fuel : nat) (deadline : Q) (self : HapticController) :
  (budget deadline (threads self) <= fuel)%nat ->
  Forall (fun t => runnable deadline t = false)
         (threads (run_threads fuel deadline self)).
Proof.
  revert self. induction fuel as [|fuel IH]; intros self Hfuel; simpl.
  - apply budget_zero. lia.
  - destruct (pick deadline (threads self) 0 None) as [[i w]|] eqn:Hpick.
    + apply pick_Some in Hpick as [? | (t & Hlook & _ & Hrun)]; [done|].
      rewrite Nat.sub_0_r in Hlook.
      destruct (vibrate_pattern_threads self i t Hlook (runnable_live _ _ Hrun))
        as (pc & wake & Hth & Hstep).
      apply IH. rewrite Hth.
      pose proof (budget_insert deadline _ i t (move t pc wake) Hlook).
      pose proof (slices_move deadline t pc wake Hrun Hstep). lia.
    + by apply pick_None in Hpick as [_ Hall].
Qed.

(** After [time.sleep] every vibration thread has either finished or is
    sleeping beyond the caller's wake-up time. *)
Lemma sleep_quiescent (seconds : Q) (self : HapticController) :
  Forall (fun t => live t = false \/ clock (sleep seconds self) < th_wake t)
         (threads (sleep seconds self)).
Proof.
  unfold sleep. cbn [set_clock threads clock].
  eapply Forall_impl; [apply run_threads_quiescent; lia|].
  intros t. unfold runnable, live.
  destruct (th_pc t); auto; rewrite <- not_true_iff_false, Qle_bool_iff;
    intros H; right; lra.
Qed.

(** ** Alert orchestrator: routing and sessions *)

Import PathSense.

(** C1 (fails on the code): [_process_ground_hazard] passes the motor name
    ['front_lower'] where [alert] expects a sensor name; [_sensor_to_motor]
    has no such key and answers its default ['front_center'].  Whatever the
    hazard and its severity, the session is started on the centre motor and
    the lower motor gets none; so it is for the critical drop-off seen on a
    tick that reads 1.35 m after a calibration at 1.00 m. *)
Theorem ground_hazard_drives_front_center (hazard : GroundDetector.Hazard) :
  _sensor_to_motor "ground_sensor" = "front_lower" /\
  _sensor_to_motor "front_lower" = "front_center" /\
  (let after :=
     haptic_controller (_process_ground_hazard Scenario.started hazard) in
   map th_motor (threads after) = ["front_center"] /\
   active_alerts after !! "front_center" = Some 0%nat /\
   active_alerts after !! "front_lower" = None) /\
  (let after :=
     haptic_controller
       (tick Scenario.walked_flat (Scenario.only_ground (Some 1.35))) in
   GroundDetector.detect_hazard
     (ground_detector Scenario.walked_flat) (Some 1.35)
   = Some (GroundDetector.drop_off
             (1.35 - Py.sum (repeat 1.00 40) / Py.len (repeat 1.00 40))
             "critical" "Large drop-off") /\
   map th_motor (threads after) = ["front_center"] /\
   active_alerts after !! "front_lower" = None /\
   motor_states after !! "front_lower" = Some false).
Proof.
  split; [reflexivity|]. split; [reflexivity|]. split.
  - unfold _process_ground_hazard.
    destruct (String.eqb (GroundDetector.severity hazard) "critical");
      [|destruct (String.eqb (GroundDetector.severity hazard) "warning")];
      vm_compute; repeat split; reflexivity.
  - vm_compute. repeat split; reflexivity.
Qed.

(** An alert on a channel that already has a session: the old control is
    flagged, the caller sleeps 0.05 s, and a new session is registered under
    a fresh control and started at the head of its pattern. *)
Lemma alert_restarts (self : HapticController)
    (sensor_name intensity pattern : string) (c : nat) :
  is_motor self (_sensor_to_motor sensor_name) = true ->
  active_alerts self !! _sensor_to_motor sensor_name = Some c ->
  (c < length (controls self))%nat ->
  let after := alert self sensor_name intensity pattern in
  let fresh := length (controls self) in
  stop_flag after c = true /\
  active_alerts after !! _sensor_to_motor sensor_name = Some fresh /\
  stop_flag after fresh = false /\
  clock after = clock self + 0.05 /\
  exists earlier,
    length earlier = length (threads self) /\
    threads after =
      earlier ++
      [ {| th_motor := _sensor_to_motor sensor_name;
           th_intensity := intensity; th_pattern := pattern;
           th_control := fresh; th_pc := LoopTest;
           th_wake := clock self + 0.05 |} ].
Proof.
  intros Hmotor Hactive Hc after fresh. subst after. unfold alert.
  rewrite Hmotor, Hactive. cbn [negb].
  destruct (sleep_sessions 0.05 (set_stop self c))
    as [(Hm & Ha & Hcs & Hlen) Hclock].
  cbn [set_stop motors active_alerts controls threads clock] in *.
  unfold start_alert, stop_flag.
  cbn [motors active_alerts controls threads clock].
  rewrite Hcs, Hclock, length_insert. fold fresh.
  split; [|split; [|split; [|split]]].
  - rewrite lookup_app_l by (rewrite length_insert; exact Hc).
    by rewrite list_lookup_insert_eq.
  - apply lookup_insert_eq.
  - rewrite lookup_app_r by (rewrite length_insert; subst fresh; lia).
    rewrite length_insert. subst fresh. by rewrite Nat.sub_diag.
  - reflexivity.
  - eexists. split; [exact Hlen | reflexivity].
Qed.

(** C2 (amended): an alert issued for a channel that already has a session
    is never a no-op, whatever its pattern and intensity, those of the
    running session included: it sets the stop flag of the running session,
    waits 0.05 s, and starts a new session under a fresh control at the head
    of its pattern (phase reset). *)
Theorem alert_always_restarts (self : HapticController)
    (sensor_name intensity pattern : string) (c : nat) :
  is_motor self (_sensor_to_motor sensor_name) = true ->
  active_alerts self !! _sensor_to_motor sensor_name = Some c ->
  (c < length (controls self))%nat ->
  let after := alert self sensor_name intensity pattern in
  after <> self /\
  stop_flag after c = true /\
  active_alerts after !! _sensor_to_motor sensor_name
    = Some (length (controls self)) /\
  stop_flag after (length (controls self)) = false /\
  clock after = clock self + 0.05 /\
  exists earlier,
    length earlier = length (threads self) /\
    threads after =
      earlier ++
      [ {| th_motor := _sensor_to_motor sensor_name;
           th_intensity := intensity; th_pattern := pattern;
           th_control := length (controls self); th_pc := LoopTest;
           th_wake := clock self + 0.05 |} ].
Proof.
  intros Hmotor Hactive Hc after.
  destruct (alert_restarts self sensor_name intensity pattern c
              Hmotor Hactive Hc) as (H1 & H2 & H3 & H4 & H5).
  split; [|by repeat split].
  intros Heq. fold after in H2. rewrite Heq, Hactive in H2.
  injection H2 as ->. lia.
Qed.

Lemma alert_always_restarts_witness :
  let running := haptic_controller Scenario.alerting in
  map (fun t => (th_pattern t, th_intensity t)) (live_sessions running "front_center")
    = [("intermittent", "low")] /\
  stop_flag (alert running "front_center" "low" "intermittent") 0 = true.
Proof.
  split; [reflexivity|].
  refine (proj1 (proj2
    (alert_always_restarts (haptic_controller Scenario.alerting)
       "front_center" "low" "intermittent" 0 _ _ _)));
    vm_compute; solve [reflexivity | lia].
Defined.

(** C2 (as stated, refuted): the obstacle stays at 2.50 m, so the second
    tick issues the alert that is already running (intermittent, low).  It
    is not a no-op: the running session is flagged to stop and a second
    session is started from the head of the pattern. *)
Lemma same_alert_is_not_a_noop :
  let running := haptic_controller Scenario.alerting in
  let again := alert running "front_center" "low" "intermittent" in
  map (fun t => (th_pattern t, th_intensity t, th_pc t, th_control t))
      (live_sessions running "front_center")
    = [("intermittent", "low", BreakTest, 0%nat)] /\
  active_alerts running !! "front_center" = Some 0%nat /\
  stop_flag running 0 = false /\
  again <> running /\
  stop_flag again 0 = true /\
  active_alerts again !! "front_center" = Some 1%nat /\
  map (fun t => (th_pattern t, th_intensity t, th_pc t, th_control t))
      (threads again)
    = [ ("intermittent", "low", BreakTest, 0%nat);
        ("intermittent", "low", LoopTest, 1%nat) ].
Proof.
  cbv zeta. split; [reflexivity|]. split; [reflexivity|].
  split; [reflexivity|]. split.
  - intros Heq. apply (f_equal controls) in Heq. vm_compute in Heq.
    discriminate.
  - vm_compute. repeat split; reflexivity.
Qed.

(** C4 (fails on the code): the obstacle moves from 2.50 m to 1.00 m.  The
    second tick flags the intermittent session, pauses 0.05 s and starts the
    pulse session while the flagged thread is still asleep in its on period:
    at that instant two sessions are live on the motor and the motor is on.
    When the flagged thread wakes up, its final [_motor_off] switches the
    motor off in the middle of the on period of the new session. *)
Theorem superseded_session_outlives_restart :
  let running := haptic_controller Scenario.alerting in
  let restarted := alert running "front_center" "medium" "pulse" in
  let later :=
    haptic_controller
      (tick Scenario.alerting (Scenario.only_front_center (Some 1.00))) in
  map (fun t => (th_pattern t, th_pc t, th_wake t))
      (live_sessions restarted "front_center")
    = [("intermittent", BreakTest, 0.2); ("pulse", LoopTest, 0.150)] /\
  clock restarted = 0.150 /\
  motor_states restarted !! "front_center" = Some true /\
  later = sleep 0.1 restarted /\
  map (fun t => (th_pattern t, th_pc t, th_wake t))
      (live_sessions later "front_center")
    = [("pulse", BreakTest, 0.4500)] /\
  clock later = 0.2500 /\
  motor_states later !! "front_center" = Some false.
Proof.
  vm_compute. repeat split; reflexivity.
Qed.

(** ** Detection cycle: zones and absent readings *)

Lemma adjust_present (optimizer : WinterOptimizer.WinterOptimizer) (d : Q) :
  exists conditioned,
    WinterOptimizer.adjust_for_temperature optimizer (Some d) None
    = Some conditioned.
Proof.
  unfold WinterOptimizer.adjust_for_temperature.
  destruct (negb _); eexists; reflexivity.
Qed.

(** [_process_obstacle] is the zone classifier followed by the transition
    of the channel. *)
Lemma process_obstacle_zone (self : PathSense) (sensor_name : string)
    (distance : Q) :
  config self = Config.default ->
  exists conditioned,
    WinterOptimizer.adjust_for_temperature
      (winter_optimizer self) (Some distance) None = Some conditioned /\
    haptic_controller (_process_obstacle self sensor_name distance)
    = Spec.transition (Spec.classify (Some conditioned)) sensor_name
        (haptic_controller self).
Proof.
  intros Hcfg.
  destruct (adjust_present (winter_optimizer self) distance) as [c Hc].
  exists c. split; [exact Hc|].
  unfold _process_obstacle. rewrite Hc, Hcfg.
  cbn [Config.DANGER_ZONE Config.WARNING_ZONE Config.ALERT_ZONE Config.default].
  unfold Spec.classify.
  destruct (Py.ltb c 0.5); [reflexivity|].
  destruct (Py.ltb c 1.5); [reflexivity|].
  destruct (Py.ltb c 3.0); reflexivity.
Qed.

Lemma read_all_sensors_absent (cfg : Config.Config)
    (read_sensor : string -> option Q) :
  (forall s, read_sensor s = None) ->
  all_absent (read_all_sensors cfg read_sensor).
Proof.
  intros Hnone. unfold all_absent, read_all_sensors.
  apply List.Forall_forall. intros [s r] Hin.
  apply in_map_iff in Hin as (s' & [= <- <-] & _). apply Hnone.
Qed.

Lemma ground_reading_absent (sensor_data : Py.dict (option Q)) :
  all_absent sensor_data -> ground_reading sensor_data = None.
Proof.
  unfold ground_reading. induction 1 as [|[s r] rest Hr _ IH]; [done|].
  simpl in *. subst r. destruct (String.eqb s "ground_sensor"); [done | exact IH].
Qed.

Lemma filter_absent (optimizer : WinterOptimizer.WinterOptimizer)
    (sensor_data : Py.dict (option Q)) (history : gmap string (list Q)) :
  all_absent sensor_data ->
  WinterOptimizer.filter_snow_particles optimizer sensor_data history
  = sensor_data.
Proof.
  intros Hall. unfold WinterOptimizer.filter_snow_particles.
  destruct (negb _); [done|].
  induction Hall as [|[s r] rest Hr _ IH]; [done|].
  simpl in *. subst r. by rewrite IH.
Qed.

Lemma update_history_absent (sensor_data : Py.dict (option Q))
    (history : gmap string (list Q)) :
  all_absent sensor_data -> update_history sensor_data history = history.
Proof.
  unfold update_history. induction 1 as [|[s r] rest Hr _ IH]; [done|].
  simpl in *. by subst r.
Qed.

Lemma process_obstacles_absent (sensor_data : Py.dict (option Q))
    (self : PathSense) :
  all_absent sensor_data -> process_obstacles sensor_data self = self.
Proof.
  unfold process_obstacles. induction 1 as [|[s r] rest Hr _ IH]; [done|].
  simpl in *. by subst r.
Qed.

(** A tick on which no sensor returns a reading only lets time pass. *)
Lemma tick_all_absent (self : PathSense) (read_sensor : string -> option Q) :
  (forall s, read_sensor s = None) ->
  tick self read_sensor
  = with_haptic self
      (sleep (Config.SCAN_INTERVAL (config self)) (haptic_controller self))
      (total_detections self).
Proof.
  intros Hnone. unfold tick.
  pose proof (read_all_sensors_absent (config self) read_sensor Hnone) as Hall.
  set (sensor_data := read_all_sensors (config self) read_sensor) in *.
  rewrite (ground_reading_absent _ Hall).
  assert (Hfiltered :
    (if Config.SNOW_FILTER_ENABLED (config self)
     then WinterOptimizer.filter_snow_particles
            (winter_optimizer self) sensor_data (sensor_history self)
     else sensor_data) = sensor_data).
  { destruct (Config.SNOW_FILTER_ENABLED _); [by apply filter_absent | done]. }
  rewrite Hfiltered, (ground_reading_absent _ Hall).
  rewrite update_history_absent by exact Hall.
  destruct (negb _ && _); cbv beta iota zeta;
    rewrite process_obstacles_absent by exact Hall;
    destruct self; reflexivity.
Qed.

(** C3 (amended): a present upper-body reading is conditioned and then
    classified: below 0.5 Danger (rapid, high), else below 1.5 Warning
    (pulse, medium), else below 3.0 Alert (intermittent, low), else Clear
    (the channel's alert is stopped).  An absent reading is not classified:
    the loop skips it, issuing neither an alert nor a stop, and a tick whose
    readings are all absent leaves the session table and every stop flag as
    they are. *)
Theorem zone_classification_of_present_readings (self : PathSense)
    (sensor_name : string) (distance : Q) :
  config self = Config.default ->
  (exists conditioned,
     WinterOptimizer.adjust_for_temperature
       (winter_optimizer self) (Some distance) None = Some conditioned /\
     Spec.classify (Some conditioned) =
       (if Py.ltb conditioned 0.5 then Spec.Danger
        else if Py.ltb conditioned 1.5 then Spec.Warning
        else if Py.ltb conditioned 3.0 then Spec.Alert
        else Spec.Clear) /\
     haptic_controller (_process_obstacle self sensor_name distance)
     = Spec.transition (Spec.classify (Some conditioned)) sensor_name
         (haptic_controller self)) /\
  (forall rest,
     process_obstacles ((sensor_name, None) :: rest) self
     = process_obstacles rest self) /\
  (forall read_sensor,
     (forall s, read_sensor s = None) ->
     haptic_controller (tick self read_sensor)
       = sleep 0.1 (haptic_controller self) /\
     same_sessions (haptic_controller self)
       (haptic_controller (tick self read_sensor))).
Proof.
  intros Hcfg. split; [|split].
  - destruct (process_obstacle_zone self sensor_name distance Hcfg)
      as (c & Hc & Hzone).
    exists c. by repeat split.
  - reflexivity.
  - intros read_sensor Hnone. rewrite tick_all_absent by exact Hnone.
    cbn [with_haptic haptic_controller]. rewrite Hcfg.
    split; [reflexivity | apply sleep_sessions].
Qed.

Lemma zone_classification_of_present_readings_witness :
  Spec.classify (Some 0.3) = Spec.Danger /\
  Spec.classify (Some 1.0) = Spec.Warning /\
  Spec.classify (Some 2.5) = Spec.Alert /\
  Spec.classify (Some 3.5) = Spec.Clear /\
  haptic_controller
    (tick Scenario.in_danger (Scenario.only_front_center None))
  = sleep 0.1 (haptic_controller Scenario.in_danger).
Proof.
  repeat (split; [reflexivity|]).
  refine (proj1 (proj2 (proj2
    (zone_classification_of_present_readings Scenario.in_danger
       "front_center" 0.30 _)) (Scenario.only_front_center None) _)).
  - reflexivity.
  - intros s. unfold Scenario.only_front_center.
    destruct (String.eqb s "front_center"); reflexivity.
Defined.

(** C3 (as stated, refuted): an obstacle at 0.30 m has started the danger
    alert of the centre channel.  A following tick with a Clear reading
    (3.50 m) stops that session; a following tick with an absent reading
    does not: the stop flag stays down and the session stays live. *)
Lemma absent_reading_does_not_stop_alert :
  let clear :=
    haptic_controller
      (tick Scenario.in_danger (Scenario.only_front_center (Some 3.50))) in
  let absent :=
    haptic_controller
      (tick Scenario.in_danger (Scenario.only_front_center None)) in
  active_alerts (haptic_controller Scenario.in_danger) !! "front_center"
    = Some 0%nat /\
  (stop_flag clear 0 = true /\ live_sessions clear "front_center" = []) /\
  (stop_flag absent 0 = false /\
   map (fun t => (th_pattern t, th_intensity t, th_pc t))
       (live_sessions absent "front_center")
     = [("rapid", "high", BreakTest)] /\
   motor_states absent !! "front_center" = Some true) /\
  absent <> clear.
Proof.
  cbv zeta. split; [reflexivity|]. split; [vm_compute; by split|].
  split; [vm_compute; by repeat split|].
  intros Heq. apply (f_equal controls) in Heq. vm_compute in Heq.
  discriminate.
Qed.

(** ** Detection cycle: the sensor history *)

Lemma process_obstacle_history (self : PathSense) (sensor_name : string)
    (distance : Q) :
  sensor_history (_process_obstacle self sensor_name distance)
  = sensor_history self.
Proof.
  unfold _process_obstacle.
  destruct (WinterOptimizer.adjust_for_temperature _ _ _); [|done].
  repeat destruct (Py.ltb _ _); reflexivity.
Qed.

Lemma process_obstacles_history (sensor_data : Py.dict (option Q))
    (self : PathSense) :
  sensor_history (process_obstacles sensor_data self) = sensor_history self.
Proof.
  unfold process_obstacles. revert self.
  induction sensor_data as [|[s r] rest IH]; intros self; [done|].
  cbn [fold_left]. rewrite IH.
  destruct r as [d|]; [|done].
  destruct (negb _); [apply process_obstacle_history | done].
Qed.

Lemma process_ground_hazard_history (self : PathSense)
    (hazard : GroundDetector.Hazard) :
  sensor_history (_process_ground_hazard self hazard) = sensor_history self.
Proof.
  unfold _process_ground_hazard. repeat destruct (String.eqb _ _); reflexivity.
Qed.

(** The readings that reach the history update of a tick. *)
Lemma tick_history (self : PathSense) (read_sensor : string -> option Q) :
  sensor_history (tick self read_sensor)
  = update_history
      (if Config.SNOW_FILTER_ENABLED (config self)
       then WinterOptimizer.filter_snow_particles (winter_optimizer self)
              (read_all_sensors (config self) read_sensor)
              (sensor_history self)
       else read_all_sensors (config self) read_sensor)
      (sensor_history self).
Proof.
  unfold tick.
  set (sensor_data := read_all_sensors (config self) read_sensor).
  set (filtered := if Config.SNOW_FILTER_ENABLED (config self) then _ else _).
  destruct (negb _ && _); [destruct (ground_reading sensor_data)|];
    cbv beta iota zeta; cbn [with_haptic sensor_history];
    (destruct (ground_reading filtered);
     [destruct (GroundDetector.detect_hazard _ _);
      [rewrite process_ground_hazard_history|] |]);
    by rewrite process_obstacles_history.
Qed.

Lemma last_n_length {A} (k : nat) (l : list A) :
  (length (Py.last_n k l) <= k)%nat.
Proof. unfold Py.last_n. rewrite length_drop. lia. Qed.

Lemma update_history_bounded (sensor_data : Py.dict (option Q))
    (history : gmap string (list Q)) :
  bounded history -> bounded (update_history sensor_data history).
Proof.
  unfold update_history. revert history.
  induction sensor_data as [|[s r] rest IH]; intros history Hb; [done|].
  cbn [fold_left]. apply IH. destruct r as [d|]; [|done].
  intros s' l. rewrite lookup_insert. case_decide.
  - intros [= <-]. apply last_n_length.
  - apply Hb.
Qed.

Lemma detection_loop_bounded (ticks : list (string -> option Q))
    (self : PathSense) :
  bounded (sensor_history self) ->
  bounded (sensor_history (_detection_loop self ticks)).
Proof.
  unfold _detection_loop. revert self.
  induction ticks as [|read_sensor ticks IH]; intros self Hb; [done|].
  cbn [fold_left]. apply IH. rewrite tick_history.
  by apply update_history_bounded.
Qed.

Lemma init_bounded (cfg : Config.Config) : bounded (sensor_history (init cfg)).
Proof.
  intros s l. cbn [init sensor_history]. intros Hl.
  apply elem_of_list_to_map_2, list_elem_of_In, in_map_iff in Hl
    as ([name pins] & [= _ <-] & _).
  simpl. lia.
Qed.

Lemma update_history_other (sensor_data : Py.dict (option Q))
    (history : gmap string (list Q)) (s : string) :
  ~ In s (map fst sensor_data) ->
  update_history sensor_data history !! s = history !! s.
Proof.
  unfold update_history. revert history.
  induction sensor_data as [|[k r] rest IH]; intros history Hnot; [done|].
  cbn [fold_left]. simpl in Hnot. rewrite IH by tauto.
  destruct r as [d|]; [|done]. apply lookup_insert_ne. tauto.
Qed.

Lemma update_history_lookup (sensor_data : Py.dict (option Q))
    (history : gmap string (list Q)) (s : string) :
  List.NoDup (map fst sensor_data) ->
  In s (map fst sensor_data) ->
  update_history sensor_data history !! s =
    match Py.get sensor_data s with
    | Some (Some d) =>
        Some (Py.last_n 5 (default [] (history !! s) ++ [d]))
    | _ => history !! s
    end.
Proof.
  revert history.
  induction sensor_data as [|[k r] rest IH]; intros history Hnd Hin; [done|].
  simpl in Hnd, Hin. inversion Hnd as [|? ? Hk Hrest]; subst.
  cbn [Py.get]. destruct (String.eqb_spec k s) as [-> | Hne].
  - unfold update_history. cbn [fold_left].
    fold (update_history rest
            (match r with
             | Some d => <[s := Py.last_n 5 (default [] (history !! s) ++ [d])]> history
             | None => history
             end)).
    rewrite update_history_other by exact Hk.
    destruct r as [d|]; [apply lookup_insert_eq | done].
  - destruct Hin as [? | Hin]; [done|].
    unfold update_history. cbn [fold_left].
    fold (update_history rest
            (match r with
             | Some d => <[k := Py.last_n 5 (default [] (history !! k) ++ [d])]> history
             | None => history
             end)).
    rewrite IH by assumption.
    destruct r as [d|]; [|done]. by rewrite lookup_insert_ne.
Qed.

Lemma get_read_all_sensors (cfg : Config.Config)
    (read_sensor : string -> option Q) (s : string) :
  In s (map fst (Config.SENSORS cfg) ++ ["ground_sensor"]) ->
  Py.get (read_all_sensors cfg read_sensor) s = Some (read_sensor s).
Proof.
  unfold read_all_sensors.
  induction (map fst (Config.SENSORS cfg) ++ ["ground_sensor"]) as [|k names IH];
    [done|].
  intros Hin. cbn [map Py.get].
  destruct (String.eqb_spec k s) as [-> | Hne]; [done|].
  destruct Hin as [? | Hin]; [done | by apply IH].
Qed.

Lemma keys_read_all_sensors (cfg : Config.Config)
    (read_sensor : string -> option Q) :
  map fst (read_all_sensors cfg read_sensor)
  = map fst (Config.SENSORS cfg) ++ ["ground_sensor"].
Proof.
  unfold read_all_sensors. rewrite map_map. apply map_id.
Qed.

Lemma get_filter_snow_particles (optimizer : WinterOptimizer.WinterOptimizer)
    (sensor_data : Py.dict (option Q)) (history : gmap string (list Q))
    (s : string) :
  Py.get (WinterOptimizer.filter_snow_particles optimizer sensor_data history) s
  = (if WinterOptimizer.snow_filter_enabled optimizer
     then WinterOptimizer.filter_reading history s
     else id) <$> Py.get sensor_data s.
Proof.
  unfold WinterOptimizer.filter_snow_particles.
  destruct (WinterOptimizer.snow_filter_enabled optimizer); simpl.
  - induction sensor_data as [|[k r] rest IH]; [done|].
    cbn [map Py.get]. by destruct (String.eqb_spec k s) as [-> | Hne].
  - by destruct (Py.get sensor_data s).
Qed.

Lemma keys_filter_snow_particles (optimizer : WinterOptimizer.WinterOptimizer)
    (sensor_data : Py.dict (option Q)) (history : gmap string (list Q)) :
  map fst (WinterOptimizer.filter_snow_particles optimizer sensor_data history)
  = map fst sensor_data.
Proof.
  unfold WinterOptimizer.filter_snow_particles. destruct (negb _); [done|].
  rewrite map_map. apply map_ext. by intros [k r].
Qed.

Lemma filter_reading_keeps (history : gmap string (list Q)) (s : string)
    (reading : option Q) :
  WinterOptimizer.filter_reading history s reading = None \/
  WinterOptimizer.filter_reading history s reading = reading.
Proof.
  unfold WinterOptimizer.filter_reading. destruct reading as [d|]; [|by left].
  repeat case_match; auto.
Qed.

Lemma tick_history_lookup (self : PathSense)
    (read_sensor : string -> option Q) (sensor_name : string) :
  let names := map fst (Config.SENSORS (config self)) ++ ["ground_sensor"] in
  List.NoDup names ->
  In sensor_name names ->
  sensor_history (tick self read_sensor) !! sensor_name =
    match accepted self read_sensor sensor_name with
    | Some d =>
        Some (Py.last_n 5
                (default [] (sensor_history self !! sensor_name) ++ [d]))
    | None => sensor_history self !! sensor_name
    end.
Proof.
  intros names Hnd Hin. rewrite tick_history. unfold accepted.
  destruct (Config.SNOW_FILTER_ENABLED (config self)); cbn [andb].
  - rewrite update_history_lookup;
      rewrite ?keys_filter_snow_particles, ?keys_read_all_sensors; auto.
    rewrite get_filter_snow_particles, get_read_all_sensors by exact Hin.
    destruct (WinterOptimizer.snow_filter_enabled _); reflexivity.
  - rewrite update_history_lookup;
      rewrite ?keys_read_all_sensors; auto.
    by rewrite get_read_all_sensors by exact Hin.
Qed.

(** C9 (amended): at every tick the history buffer of a sensor holds at
    most 5 readings, in insertion order, the oldest dropped on overflow.
    The entry appended on a tick is the sensor's reading of that tick as the
    snow filter passed it: absent or suppressed readings are not stored, and
    the stored value is the reading itself, not its temperature-compensated
    value. *)
Theorem sensor_history_keeps_last_five_readings (self : PathSense)
    (read_sensor : string -> option Q) (sensor_name : string) :
  let names := map fst (Config.SENSORS (config self)) ++ ["ground_sensor"] in
  List.NoDup names ->
  In sensor_name names ->
  let before := default [] (sensor_history self !! sensor_name) in
  let after :=
    default [] (sensor_history (tick self read_sensor) !! sensor_name) in
  (accepted self read_sensor sensor_name = None \/
   accepted self read_sensor sensor_name = read_sensor sensor_name) /\
  after =
    match accepted self read_sensor sensor_name with
    | Some d => Py.last_n 5 (before ++ [d])
    | None => before
    end /\
  (forall d, (length before < 5)%nat ->
     Py.last_n 5 (before ++ [d]) = before ++ [d]) /\
  (forall d, length before = 5%nat ->
     Py.last_n 5 (before ++ [d]) = drop 1 before ++ [d]) /\
  (forall cfg ticks, bounded (sensor_history (_detection_loop (init cfg) ticks))).
Proof.
  intros names Hnd Hin before after.
  split; [|split; [|split; [|split]]].
  - unfold accepted. destruct (_ && _); [|by right].
    apply filter_reading_keeps.
  - subst after. rewrite tick_history_lookup by assumption.
    by destruct (accepted self read_sensor sensor_name).
  - intros d Hlen. unfold Py.last_n. rewrite length_app. simpl.
    replace (length before + 1 - 5)%nat with 0%nat by lia. reflexivity.
  - intros d Hlen. unfold Py.last_n. rewrite length_app. simpl.
    replace (length before + 1 - 5)%nat with 1%nat by lia.
    rewrite drop_app_le by lia. reflexivity.
  - intros cfg ticks. apply detection_loop_bounded, init_bounded.
Qed.

Lemma sensor_history_keeps_last_five_readings_witness :
  default []
    (sensor_history
       (tick Scenario.started (Scenario.only_front_center (Some 1.00)))
     !! "front_center")
  = [1.00].
Proof.
  refine (proj1 (proj2
    (sensor_history_keeps_last_five_readings Scenario.started
       (Scenario.only_front_center (Some 1.00)) "front_center" _ _))).
  - apply NoDup_ListNoDup. vm_compute.
    apply (bool_decide_unpack _). vm_compute. reflexivity.
  - vm_compute. tauto.
Defined.

(** C9 (as stated, refuted): on the first tick the centre sensor reads
    1.00 m at 0 degrees.  The conditioned reading, on which the zone is
    decided, is 0.97 m; the entry stored in the history is 1.00 m. *)
Lemma history_entry_is_not_conditioned :
  let self := tick Scenario.started (Scenario.only_front_center (Some 1.00)) in
  WinterOptimizer.adjust_for_temperature
    (winter_optimizer Scenario.started) (Some 1.00) None = Some 0.97 /\
  sensor_history self !! "front_center" = Some [1.00] /\
  ~ 1.00 == 0.97 /\
  ~ (exists conditioned,
       WinterOptimizer.adjust_for_temperature
         (winter_optimizer Scenario.started) (Some 1.00) None
       = Some conditioned /\
       sensor_history self !! "front_center" = Some [conditioned]).
Proof.
  cbv zeta. split; [reflexivity|]. split; [reflexivity|].
  split; [discriminate|].
  intros (c & Hc & Hh). vm_compute in Hc, Hh. congruence.
Qed.

(** * Further properties of the sources *)

(** ** Rounding and conditioning keep the order of readings *)

Lemma round_half_even_proper (x y : Q) :
  x == y -> Py.round_half_even x = Py.round_half_even y.
Proof.
  intros Hxy. unfold Py.round_half_even.
  rewrite (Qfloor_comp x y Hxy).
  assert (Hc : Qcompare (x - inject_Z (Qfloor y)) (1 # 2)
               = Qcompare (y - inject_Z (Qfloor y)) (1 # 2)).
  { apply Qcompare_comp; [by rewrite Hxy | reflexivity]. }
  by rewrite Hc.
Qed.

Lemma round_half_even_monotone (x y : Q) :
  x <= y -> (Py.round_half_even x <= Py.round_half_even y)%Z.
Proof.
  intros Hxy. destruct (Qeq_dec x y) as [Heq | Hne].
  { rewrite (round_half_even_proper x y Heq). lia. }
  assert (Hlt : x < y).
  { destruct (Qlt_le_dec x y) as [?|Hge]; [done|].
    exfalso. apply Hne. by apply Qle_antisym. }
  pose proof (round_half_even_near x) as Hx.
  pose proof (round_half_even_near y) as Hy.
  apply Qabs_Qle_condition in Hx, Hy.
  apply Z.lt_succ_r. rewrite Zlt_Qlt.
  unfold Z.succ. rewrite inject_Z_plus. change (inject_Z 1) with 1. lra.
Qed.

Lemma round2_monotone (x y : Q) : x <= y -> Py.round2 x <= Py.round2 y.
Proof.
  intros Hxy. unfold Py.round2.
  assert (H : (Py.round_half_even (x * 100) <= Py.round_half_even (y * 100))%Z).
  { apply round_half_even_monotone. lra. }
  rewrite Zle_Qle in H. unfold Qdiv. change (/ 100) with (1 # 100). lra.
Qed.

Lemma round2_hundredth (k : Z) : Py.round2 (inject_Z k / 100) == inject_Z k / 100.
Proof.
  unfold Py.round2.
  assert (Hk : inject_Z k / 100 * 100 == inject_Z k) by (field; discriminate).
  rewrite (round_half_even_proper _ _ Hk).
  unfold Py.round_half_even. rewrite Qfloor_Z.
  assert (Hc : Qcompare (inject_Z k - inject_Z k) (1 # 2) = Lt).
  { rewrite <- Qlt_alt. lra. }
  by rewrite Hc.
Qed.

(** X1: conditioning keeps the order of two readings whenever the speed of
    sound it computes is not negative, and for a fixed reading that is not
    negative it never decreases when the temperature rises. *)
Theorem adjust_for_temperature_monotone
    (self : WinterOptimizer.WinterOptimizer) (raw1 raw2 t1 t2 : Q) :
  Config.COLD_TEMP_COMPENSATION (WinterOptimizer.config self) = true ->
  0 <= 331.3 + 0.606 * t1 ->
  0 <= raw1 <= raw2 ->
  t1 <= t2 ->
  exists d11 d21 d12,
    WinterOptimizer.adjust_for_temperature self (Some raw1) (Some t1) = Some d11 /\
    WinterOptimizer.adjust_for_temperature self (Some raw2) (Some t1) = Some d21 /\
    WinterOptimizer.adjust_for_temperature self (Some raw1) (Some t2) = Some d12 /\
    d11 <= d21 /\ d11 <= d12.
Proof.
  intros Hon Hspeed [Hraw0 Hraw] Ht.
  unfold WinterOptimizer.adjust_for_temperature. rewrite Hon. cbn [negb].
  do 3 eexists. repeat (split; [reflexivity|]).
  assert (Hinv : / 343.0 == 10 # 3430) by reflexivity.
  split; apply round2_monotone; unfold Qdiv; rewrite !Hinv.
  - apply Qmult_le_compat_r; [exact Hraw | lra].
  - rewrite !(Qmult_comm raw1). apply Qmult_le_compat_r; [lra | exact Hraw0].
Qed.

Lemma adjust_for_temperature_monotone_witness :
  exists d11 d21 d12,
    WinterOptimizer.adjust_for_temperature
      (WinterOptimizer.init Config.default) (Some 1.00) (Some (-20)) = Some d11 /\
    WinterOptimizer.adjust_for_temperature
      (WinterOptimizer.init Config.default) (Some 2.00) (Some (-20)) = Some d21 /\
    WinterOptimizer.adjust_for_temperature
      (WinterOptimizer.init Config.default) (Some 1.00) (Some 20) = Some d12 /\
    d11 <= d21 /\ d11 <= d12.
Proof.
  apply (adjust_for_temperature_monotone
           (WinterOptimizer.init Config.default) 1.00 2.00 (-20) 20);
    vm_compute; try reflexivity; try (split; discriminate); discriminate.
Defined.

(** ** Sensor read-out *)



(** ** Battery estimate *)

Lemma Qle_bool_false (a b : Q) : Qle_bool a b = false <-> b < a.
Proof.
  rewrite <- not_true_iff_false, Qle_bool_iff.
  split; [apply Qnot_le_lt | apply Qlt_not_le].
Qed.

Ltac qle_cases :=
  repeat match goal with
  | |- context [Qle_bool ?a ?b] =>
      let H := fresh "Hle" in
      destruct (Qle_bool a b) eqn:H;
      [apply Qle_bool_iff in H | apply Qle_bool_false in H]
  end.

(** X3: the battery capacity estimate never decreases when the temperature
    rises, and always lies between 0.30 and 1.0. *)
Theorem estimate_battery_impact_monotone (t1 t2 : Q) :
  t1 <= t2 ->
  WinterOptimizer.estimate_battery_impact t1
    <= WinterOptimizer.estimate_battery_impact t2 /\
  0.30 <= WinterOptimizer.estimate_battery_impact t1 <= 1.0.
Proof.
  intros Ht. unfold WinterOptimizer.estimate_battery_impact.
  qle_cases; repeat split; lra.
Qed.

Lemma estimate_battery_impact_monotone_witness :
  WinterOptimizer.estimate_battery_impact (-15)
    <= WinterOptimizer.estimate_battery_impact 5.
Proof.
  refine (proj1 (estimate_battery_impact_monotone (-15) 5 _)). discriminate.
Defined.

(** ** Noise filter: variance, steady histories and muted sensors *)

Lemma sum_nonneg (l : list Q) (acc : Q) :
  Forall (fun x => 0 <= x) l -> 0 <= acc -> 0 <= fold_left Qplus l acc.
Proof.
  revert acc. induction l as [|x l IH]; intros acc Hall Hacc; [done|].
  inversion Hall; subst. cbn [fold_left]. apply IH; [assumption | lra].
Qed.

Lemma len_positive (l : list Q) : (0 < length l)%nat -> 0 < Py.len l.
Proof.
  intros Hlen. unfold Py.len. change 0 with (inject_Z 0).
  rewrite <- Zlt_Qlt. lia.
Qed.

Lemma power2_nonneg (a : Q) : 0 <= a ^ 2.
Proof. simpl. nra. Qed.

(** X4: the variance computed over a history is never negative, and it is 0
    when fewer than two valid readings are available. *)
Theorem calculate_variance_nonneg (readings : list (option Q)) :
  0 <= WinterOptimizer._calculate_variance readings /\
  ((length (omap id readings) < 2)%nat ->
   WinterOptimizer._calculate_variance readings = 0.0).
Proof.
  unfold WinterOptimizer._calculate_variance.
  destruct (Nat.ltb_spec (length readings) 2) as [Hshort|Hlen];
    [split; [discriminate | done]|].
  set (valid := omap id readings).
  destruct (Nat.ltb_spec (length valid) 2) as [Hshort|Hvalid];
    [split; [discriminate | done]|].
  split; [|lia].
  apply Qle_shift_div_l; [apply len_positive; lia|].
  rewrite Qmult_0_l. apply sum_nonneg; [|discriminate].
  apply List.Forall_forall. intros y Hy.
  apply in_map_iff in Hy as (x & <- & _).
  apply power2_nonneg.
Qed.

Lemma calculate_variance_nonneg_witness :
  WinterOptimizer._calculate_variance [Some 1.0; None] = 0.0.
Proof.
  refine (proj2 (calculate_variance_nonneg [Some 1.0; None]) _).
  vm_compute. lia.
Defined.

Lemma population_variance_constant (c : Q) (history : list Q) :
  (0 < length history)%nat ->
  Forall (fun x => x == c) history ->
  Spec.population_variance history == 0.
Proof.
  intros Hlen Hall. unfold Spec.population_variance.
  pose proof (len_positive history Hlen) as Hpos.
  set (mean := Py.sum history / Py.len history).
  assert (Hmean : mean == c).
  { subst mean. unfold Py.sum. rewrite (sum_constant c) by exact Hall.
    field. lra. }
  assert (Hzero : Forall (fun y => y == 0)
                    (map (fun x => (x - mean) ^ 2) history)).
  { apply List.Forall_forall. intros y Hy.
    apply in_map_iff in Hy as (x & <- & Hx).
    rewrite List.Forall_forall in Hall. rewrite (Hall x Hx), Hmean.
    simpl. ring. }
  unfold Py.sum at 1. rewrite (sum_constant 0) by exact Hzero.
  field. lra.
Qed.

Lemma rate_of_change_constant (c : Q) (history : list Q) :
  Forall (fun x => x == c) history ->
  WinterOptimizer.rate_of_change history == 0.
Proof.
  intros Hall. unfold WinterOptimizer.rate_of_change.
  destruct (rev history) as [|latest [|previous older]] eqn:Hrev;
    [reflexivity..|].
  assert (Hin : forall x, In x (rev history) -> x == c).
  { intros x Hx. rewrite List.Forall_forall in Hall.
    apply Hall. by apply in_rev. }
  rewrite Hrev in Hin.
  assert (Hl : latest == c) by (apply Hin; by left).
  assert (Hp : previous == c) by (apply Hin; right; by left).
  rewrite Hl, Hp, Qabs_pos by lra. ring.
Qed.

(** X5: a sensor whose history (at least 3 entries) is steady at one value
    has every reading accepted, however far the reading is from that value:
    the 0.20 band is only consulted for erratic histories. *)
Theorem steady_history_passes (history_buffer : gmap string (list Q))
    (sensor_name : string) (history : list Q) (c current : Q) :
  history_buffer !! sensor_name = Some history ->
  (3 <= length history)%nat ->
  Forall (fun x => x == c) history ->
  WinterOptimizer.filter_reading history_buffer sensor_name (Some current)
  = Some current.
Proof.
  intros Hlook Hlen Hall. unfold WinterOptimizer.filter_reading.
  rewrite Hlook. cbn [default from_option id].
  destruct (Nat.ltb_spec (length history) 3) as [?|_]; [lia|].
  rewrite calculate_variance_spec by lia.
  pose proof (population_variance_constant c history ltac:(lia) Hall) as Hvar.
  pose proof (rate_of_change_constant c history Hall) as Hrate.
  ltb_case 0.4 (Spec.population_variance history) H1; [lra|].
  ltb_case 0.5 (WinterOptimizer.rate_of_change history) H2; [lra|].
  reflexivity.
Qed.

Lemma steady_history_passes_witness :
  WinterOptimizer.filter_reading {["s" := [3.5; 3.5; 3.5]]} "s" (Some 0.3)
  = Some 0.3.
Proof.
  apply (steady_history_passes _ "s" [3.5; 3.5; 3.5] 3.5 0.3).
  - reflexivity.
  - simpl. lia.
  - repeat constructor.
Defined.

(** ** Detection cycle: what a tick keeps *)

Lemma same_setup_refl (self : PathSense) : same_setup self self.
Proof. by repeat split. Qed.

Lemma same_setup_trans (a b c : PathSense) :
  same_setup a b -> same_setup b c -> same_setup a c.
Proof.
  intros (? & ? & ? & ? & ?) (? & ? & ? & ? & ?). repeat split; congruence.
Qed.

Lemma process_obstacle_setup (self : PathSense) (sensor_name : string)
    (distance : Q) :
  same_setup self (_process_obstacle self sensor_name distance).
Proof.
  unfold _process_obstacle.
  destruct (WinterOptimizer.adjust_for_temperature _ _ _);
    [|apply same_setup_refl].
  repeat destruct (Py.ltb _ _); by repeat split.
Qed.

Lemma process_obstacles_setup (sensor_data : Py.dict (option Q))
    (self : PathSense) :
  same_setup self (process_obstacles sensor_data self).
Proof.
  unfold process_obstacles. revert self.
  induction sensor_data as [|[s r] rest IH]; intros self;
    [apply same_setup_refl|].
  cbn [fold_left]. eapply same_setup_trans; [|apply IH].
  destruct r as [d|]; [|apply same_setup_refl].
  destruct (negb _); [apply process_obstacle_setup | apply same_setup_refl].
Qed.

Lemma process_ground_hazard_setup (self : PathSense)
    (hazard : GroundDetector.Hazard) :
  same_setup self (_process_ground_hazard self hazard).
Proof.
  unfold _process_ground_hazard. repeat destruct (String.eqb _ _);
    by repeat split.
Qed.

(** A tick changes neither the configuration nor the optimizer; its ground
    detector is the one left by the calibration step. *)
Lemma tick_setup (self : PathSense) (read_sensor : string -> option Q) :
  config (tick self read_sensor) = config self /\
  winter_optimizer (tick self read_sensor) = winter_optimizer self /\
  ground_detector (tick self read_sensor) = calibration_step self read_sensor.
Proof.
  unfold tick, calibration_step.
  set (sensor_data := read_all_sensors (config self) read_sensor).
  set (filtered := if Config.SNOW_FILTER_ENABLED (config self) then _ else _).
  destruct (negb _ && _); [destruct (ground_reading sensor_data)|];
    cbv beta iota zeta;
    match goal with
    | |- context [process_obstacles filtered ?s] =>
        destruct (process_obstacles_setup filtered s) as (Hc & Hw & Hg & _);
        set (processed := process_obstacles filtered s) in *
    end;
    (destruct (ground_reading filtered);
     [destruct (GroundDetector.detect_hazard _ _) as [hazard|];
      [destruct (process_ground_hazard_setup processed hazard)
         as (Hc' & Hw' & Hg' & _)|] |]);
    cbn [with_haptic config winter_optimizer ground_detector] in *;
    repeat split; congruence.
Qed.

(** *** Muted sensors *)

Lemma last_two_recent (older : list Q) (previous latest current : Q) :
  In previous (Py.last_n 3 (older ++ [previous; latest]) ++ [current]) /\
  In latest (Py.last_n 3 (older ++ [previous; latest]) ++ [current]).
Proof.
  unfold Py.last_n. rewrite length_app. cbn [length].
  rewrite drop_app_le by lia.
  split; apply in_or_app; left; apply in_or_app; right; simpl; auto.
Qed.

Lemma jump_suppresses (history_buffer : gmap string (list Q))
    (sensor_name : string) (older : list Q) (previous latest : Q)
    (reading : option Q) :
  history_buffer !! sensor_name = Some (older ++ [previous; latest]) ->
  (1 <= length older)%nat ->
  0.5 < Qabs (latest - previous) ->
  WinterOptimizer.filter_reading history_buffer sensor_name reading = None.
Proof.
  intros Hlook Hlen Hjump.
  pose proof (filter_reading_spec history_buffer sensor_name reading) as Hspec.
  rewrite Hlook in Hspec. cbn [default from_option id] in Hspec.
  assert (Hlength : (3 <= length (older ++ [previous; latest]))%nat).
  { rewrite length_app. simpl. lia. }
  assert (Herratic : Spec.erratic (older ++ [previous; latest])).
  { right. by exists older, previous, latest. }
  assert (Hband : forall current,
            ~ Spec.within_band 0.20
                (Py.last_n 3 (older ++ [previous; latest]) ++ [current])).
  { intros current Hb.
    destruct (last_two_recent older previous latest current) as [Hp Hl].
    pose proof (Hb latest previous Hl Hp) as H1.
    pose proof (Hb previous latest Hp Hl) as H2.
    revert Hjump. apply Qle_not_lt. apply Qabs_Qle_condition. lra. }
  remember (WinterOptimizer.filter_reading history_buffer sensor_name reading)
    as out eqn:Hout.
  destruct Hspec as [|current Hshort|current _ _ Hin|current _ _ _
                    |current _ Hsteady]; try reflexivity.
  - lia.
  - by apply Hband in Hin.
  - by apply Hsteady in Herratic.
Qed.

(** X6: once the two most recent entries of a sensor's history (of at least
    3 entries) differ by more than 0.5 m, the snow filter suppresses every
    later reading of that sensor, whatever its value: the band check fails
    on the history alone, a suppressed reading is not appended, and so the
    history never changes again. *)
Theorem jump_in_history_mutes_sensor (self : PathSense)
    (ticks : list (string -> option Q)) (sensor_name : string)
    (older : list Q) (previous latest : Q) :
  let names := map fst (Config.SENSORS (config self)) ++ ["ground_sensor"] in
  List.NoDup names ->
  In sensor_name names ->
  Config.SNOW_FILTER_ENABLED (config self) = true ->
  WinterOptimizer.snow_filter_enabled (winter_optimizer self) = true ->
  sensor_history self !! sensor_name = Some (older ++ [previous; latest]) ->
  (1 <= length older)%nat ->
  0.5 < Qabs (latest - previous) ->
  sensor_history (_detection_loop self ticks) !! sensor_name
    = Some (older ++ [previous; latest]) /\
  (forall read_sensor,
     accepted (_detection_loop self ticks) read_sensor sensor_name = None).
Proof.
  intros names Hnd Hin Hcfg Hopt Hhist Hlen Hjump. subst names.
  unfold _detection_loop. revert self Hnd Hin Hcfg Hopt Hhist.
  induction ticks as [|read_sensor ticks IH];
    intros self Hnd Hin Hcfg Hopt Hhist.
  - cbn [fold_left]. split; [exact Hhist|]. intros read_sensor.
    unfold accepted. rewrite Hcfg, Hopt. cbn [andb]. by eapply jump_suppresses.
  - cbn [fold_left].
    destruct (tick_setup self read_sensor) as (Hc & Hw & _).
    apply IH; rewrite ?Hc, ?Hw; try assumption.
    rewrite tick_history_lookup by assumption.
    unfold accepted. rewrite Hcfg, Hopt. cbn [andb].
    by rewrite (jump_suppresses _ _ older previous latest).
Qed.

Lemma jump_in_history_mutes_sensor_witness :
  sensor_history
    (_detection_loop Scenario.jumped
       (repeat (Scenario.only_front_center (Some 1.0)) 3))
    !! "front_center"
  = Some [3.5; 3.5; 3.5; 1.0] /\
  accepted
    (_detection_loop Scenario.jumped
       (repeat (Scenario.only_front_center (Some 1.0)) 3))
    (Scenario.only_front_center (Some 1.0)) "front_center" = None.
Proof.
  destruct (jump_in_history_mutes_sensor Scenario.jumped
              (repeat (Scenario.only_front_center (Some 1.0)) 3)
              "front_center" [3.5; 3.5] 3.5 1.0) as [Hh Ha].
  - apply NoDup_ListNoDup. vm_compute.
    apply (bool_decide_unpack _). vm_compute. reflexivity.
  - vm_compute. tauto.
  - reflexivity.
  - reflexivity.
  - vm_compute. reflexivity.
  - simpl. lia.
  - vm_compute. reflexivity.
  - split; [exact Hh | apply Ha].
Defined.

(** ** Ground classifier: raised surfaces and normal ground *)

(** X7: every raised surface returned by the classifier is a warning with
    a height strictly above 0.10, so the "Small bump or crack" bucket of
    [_classify_rise] is never reported. *)
Theorem raised_surface_height_above_curb_threshold
    (self : GroundDetector.GroundDetector) (reading : option Q)
    (height : Q) (severity description : string) :
  GroundDetector.config self = Config.default ->
  GroundDetector.detect_hazard self reading =
    Some (GroundDetector.raised_surface height severity description) ->
  0.10 < height /\
  severity = "warning" /\
  description <> "Small bump or crack" /\
  (description = "Curb detected" \/
   description = "Step up ahead" \/
   description = "Stairs or large obstacle").
Proof.
  intros Hcfg. unfold GroundDetector.detect_hazard. rewrite Hcfg.
  destruct (GroundDetector.calibrated self); [|discriminate].
  destruct reading as [current|]; [|discriminate].
  destruct (GroundDetector.baseline_distance self) as [baseline|];
    [|discriminate].
  cbn [Config.POTHOLE_THRESHOLD Config.CURB_THRESHOLD
       Config.MAJOR_DROP_THRESHOLD Config.default].
  set (deviation := current - baseline).
  ltb_case 0.15 deviation H1; [discriminate|].
  match goal with
  | |- context [Py.ltb deviation ?b] => ltb_case deviation b H2
  end.
  - assert (Hh : 0.10 < Qabs deviation).
    { rewrite Qabs_neg by lra. lra. }
    revert Hh. generalize (Qabs deviation). intros h Hh [= <- <- <-].
    split; [exact Hh|]. split; [reflexivity|].
    unfold GroundDetector._classify_rise.
    ltb_case h 0.10 H3; [lra|].
    ltb_case h 0.15 H4; [split; [discriminate | tauto]|].
    ltb_case h 0.20 H5; (split; [intros [=] | tauto]).
  - destruct (Py.ltb 0.05 (Qabs deviation)); discriminate.
Qed.

Lemma raised_surface_height_above_curb_threshold_witness :
  0.10 < Qabs (0.85 - Py.sum (repeat 1.00 40) / Py.len (repeat 1.00 40)).
Proof.
  refine (proj1
    (raised_surface_height_above_curb_threshold
       (Scenario.calibrated_on Scenario.flat_ground) (Some 0.85)
       _ "warning" "Step up ahead" _ _)); vm_compute; reflexivity.
Defined.



(** ** Detection cycle: calibration *)

(** X9: once the ground detector is calibrated, no later tick of the
    detection loop changes it: the baseline and the collected samples stay
    as they are, whatever the ground sensor reads. *)
Theorem calibration_is_one_shot (self : PathSense)
    (ticks : list (string -> option Q)) :
  GroundDetector.calibrated (ground_detector self) = true ->
  ground_detector (_detection_loop self ticks) = ground_detector self.
Proof.
  unfold _detection_loop. revert self.
  induction ticks as [|read_sensor ticks IH]; intros self Hcal; [done|].
  cbn [fold_left].
  assert (Hstep : ground_detector (tick self read_sensor) = ground_detector self).
  { rewrite (proj2 (proj2 (tick_setup self read_sensor))).
    unfold calibration_step. by rewrite Hcal. }
  rewrite IH; [exact Hstep | by rewrite Hstep].
Qed.

Lemma calibration_is_one_shot_witness :
  GroundDetector.baseline_distance
    (ground_detector
       (_detection_loop Scenario.walked_flat
          (repeat (Scenario.only_ground (Some 1.35)) 3)))
  = GroundDetector.baseline_distance (ground_detector Scenario.walked_flat).
Proof.
  rewrite (calibration_is_one_shot Scenario.walked_flat
             (repeat (Scenario.only_ground (Some 1.35)) 3));
    [reflexivity | vm_compute; reflexivity].
Defined.

Lemma ground_reading_get (sensor_data : Py.dict (option Q)) (ground : Q) :
  ground_reading sensor_data = Some ground ->
  Py.get sensor_data "ground_sensor" = Some (Some ground).
Proof.
  unfold ground_reading. destruct (Py.get sensor_data "ground_sensor") as [r|];
    [|discriminate].
  destruct (Py.truthy r); [|discriminate]. by intros ->.
Qed.

Lemma calibrate_feed (detector : GroundDetector.GroundDetector)
    (sensor_data : Py.dict (option Q)) (ground : Q) :
  Py.get sensor_data "ground_sensor" = Some (Some ground) ->
  GroundDetector.calibrate detector sensor_data = Scenario.feed detector ground.
Proof.
  intros Hget. unfold Scenario.feed, GroundDetector.calibrate.
  rewrite Hget. cbn [Py.get]. by rewrite String.eqb_refl.
Qed.

(** The counters of the calibration, as an invariant of a tick. *)
Lemma tick_calibration_counts (self : PathSense)
    (read_sensor : string -> option Q) :
  let detector := ground_detector self in
  GroundDetector.config detector = Config.default ->
  calibration_count self
    = length (GroundDetector.calibration_readings detector) ->
  (calibration_count self <= 50)%nat ->
  (GroundDetector.calibrated detector = true <-> calibration_count self = 50%nat) ->
  (GroundDetector.calibrated detector = false ->
   GroundDetector.baseline_distance detector = None) ->
  let self' := tick self read_sensor in
  let detector' := ground_detector self' in
  GroundDetector.config detector' = Config.default /\
  calibration_count self'
    = length (GroundDetector.calibration_readings detector') /\
  (calibration_count self' <= 50)%nat /\
  (GroundDetector.calibrated detector' = true
   <-> calibration_count self' = 50%nat) /\
  (GroundDetector.calibrated detector' = false ->
   GroundDetector.baseline_distance detector' = None).
Proof.
  intros detector Hcfg Hcount Hle Hcal Hbase self' detector'.
  assert (Hcases :
    (ground_detector self' = detector /\
     calibration_count self' = calibration_count self) \/
    (exists ground,
       GroundDetector.calibrated detector = false /\
       (calibration_count self < 50)%nat /\
       ground_detector self' = Scenario.feed detector ground /\
       calibration_count self' = S (calibration_count self))).
  { subst self' detector. unfold tick.
    set (sensor_data := read_all_sensors (config self) read_sensor).
    set (filtered := if Config.SNOW_FILTER_ENABLED (config self) then _ else _).
    destruct (GroundDetector.calibrated (ground_detector self)) eqn:Hc;
      cbn [negb andb];
      [|destruct (Nat.ltb_spec (calibration_count self) 50) as [Hlt|_];
        [destruct (ground_reading sensor_data) as [ground|] eqn:Hg|]];
      cbv beta iota zeta;
      match goal with
      | |- context [process_obstacles filtered ?s] =>
          destruct (process_obstacles_setup filtered s)
            as (_ & _ & Hg1 & _ & Hn1);
          set (processed := process_obstacles filtered s) in *
      end;
      (destruct (ground_reading filtered);
       [destruct (GroundDetector.detect_hazard _ _) as [hazard|];
        [destruct (process_ground_hazard_setup processed hazard)
           as (_ & _ & Hg2 & _ & Hn2)|] |]);
      cbn [with_haptic ground_detector calibration_count] in *;
      try (left; split; congruence).
    all: right; exists ground; rewrite ?Hg2, ?Hn2, ?Hg1, ?Hn1;
      repeat split; try assumption; try reflexivity;
      apply calibrate_feed; by apply ground_reading_get. }
  destruct Hcases as [[Hd Hn] | (ground & Huncal & Hlt & Hd & Hn)];
    subst detector'; rewrite Hd, Hn; [subst detector; tauto|].
  unfold Scenario.feed, GroundDetector.calibrate. cbn [Py.get].
  rewrite String.eqb_refl, Hcfg.
  cbn [Config.GROUND_CALIBRATION_SAMPLES Config.default].
  rewrite length_app, <- Hcount. cbn [length].
  destruct (Nat.leb_spec 50 (calibration_count self + 1)) as [Hge|Hsmall];
    cbn [GroundDetector.config GroundDetector.calibration_readings
         GroundDetector.calibrated GroundDetector.baseline_distance];
    rewrite ?length_app, <- ?Hcount; cbn [length].
  - repeat split; try lia; try done.
  - rewrite Huncal. repeat split; try lia; try done. intros _. by apply Hbase.
Qed.

(** X10: in the detection loop of the system as configured, the ground
    detector is calibrated exactly when 50 ground samples have been
    collected; the counter of the loop equals the number of collected
    samples and never exceeds 50, and no baseline exists before. *)
Theorem calibration_needs_fifty_samples (ticks : list (string -> option Q)) :
  let self := _detection_loop (init Config.default) ticks in
  let detector := ground_detector self in
  calibration_count self
    = length (GroundDetector.calibration_readings detector) /\
  (calibration_count self <= 50)%nat /\
  (GroundDetector.calibrated detector = true
   <-> calibration_count self = 50%nat) /\
  (GroundDetector.calibrated detector = false ->
   GroundDetector.baseline_distance detector = None).
Proof.
  cbv zeta.
  cut (forall self,
         GroundDetector.config (ground_detector self) = Config.default ->
         calibration_count self
           = length (GroundDetector.calibration_readings (ground_detector self)) ->
         (calibration_count self <= 50)%nat ->
         (GroundDetector.calibrated (ground_detector self) = true
          <-> calibration_count self = 50%nat) ->
         (GroundDetector.calibrated (ground_detector self) = false ->
          GroundDetector.baseline_distance (ground_detector self) = None) ->
         let self' := _detection_loop self ticks in
         calibration_count self'
           = length (GroundDetector.calibration_readings (ground_detector self')) /\
         (calibration_count self' <= 50)%nat /\
         (GroundDetector.calibrated (ground_detector self') = true
          <-> calibration_count self' = 50%nat) /\
         (GroundDetector.calibrated (ground_detector self') = false ->
          GroundDetector.baseline_distance (ground_detector self') = None)).
  { intros H. apply H; simpl; try done; lia. }
  unfold _detection_loop.
  induction ticks as [|read_sensor ticks IH];
    intros self Hcfg Hcount Hle Hcal Hbase; cbn [fold_left]; [tauto|].
  destruct (tick_calibration_counts self read_sensor Hcfg Hcount Hle Hcal Hbase)
    as (? & ? & ? & ? & ?).
  apply IH; assumption.
Qed.

Lemma process_obstacles_upper_absent (sensor_data : Py.dict (option Q))
    (self : PathSense) :
  upper_absent sensor_data -> process_obstacles sensor_data self = self.
Proof.
  unfold process_obstacles. induction 1 as [|[s r] rest Hr _ IH]; [done|].
  cbn [fold_left]. simpl in Hr. destruct Hr as [-> | ->]; [|exact IH].
  by destruct r.
Qed.

Lemma filter_upper_absent (optimizer : WinterOptimizer.WinterOptimizer)
    (sensor_data : Py.dict (option Q)) (history : gmap string (list Q)) :
  upper_absent sensor_data ->
  upper_absent
    (WinterOptimizer.filter_snow_particles optimizer sensor_data history).
Proof.
  intros Hall. unfold WinterOptimizer.filter_snow_particles.
  destruct (negb _); [done|].
  induction Hall as [|[s r] rest Hr _ IH]; [constructor|].
  cbn [map]. constructor; [|exact IH].
  simpl in *. destruct Hr as [-> | ->]; auto.
Qed.

(** X11: while the ground detector is still uncalibrated after the
    calibration step of a tick, the ground reading of that tick starts no
    alert: if no upper-body sensor has a reading, the tick only lets the
    scan interval pass on the haptic controller. *)
Theorem ground_hazards_skipped_until_calibrated (self : PathSense)
    (read_sensor : string -> option Q) :
  (forall s, s <> "ground_sensor" -> read_sensor s = None) ->
  GroundDetector.calibrated (ground_detector (tick self read_sensor)) = false ->
  haptic_controller (tick self read_sensor)
  = sleep (Config.SCAN_INTERVAL (config self)) (haptic_controller self).
Proof.
  intros Habs Hcal.
  rewrite (proj2 (proj2 (tick_setup self read_sensor))) in Hcal.
  unfold tick. unfold calibration_step in Hcal.
  set (sensor_data := read_all_sensors (config self) read_sensor) in *.
  assert (Hdata : upper_absent sensor_data).
  { subst sensor_data. unfold upper_absent, read_all_sensors.
    apply List.Forall_forall. intros [s r] Hin.
    apply in_map_iff in Hin as (s' & [= <- <-] & _). simpl.
    destruct (String.eqb_spec s' "ground_sensor"); [by left|].
    right. by apply Habs. }
  set (filtered := if Config.SNOW_FILTER_ENABLED (config self) then _ else _).
  assert (Hup : upper_absent filtered).
  { subst filtered. destruct (Config.SNOW_FILTER_ENABLED _); [|done].
    by apply filter_upper_absent. }
  destruct (negb _ && _); [destruct (ground_reading sensor_data)|];
    cbv beta iota zeta;
    rewrite (process_obstacles_upper_absent _ _ Hup);
    cbn [ground_detector];
    (destruct (ground_reading filtered);
     [rewrite detect_hazard_uncalibrated by exact Hcal|]);
    reflexivity.
Qed.

Lemma ground_hazards_skipped_until_calibrated_witness :
  haptic_controller
    (tick Scenario.started (Scenario.only_ground (Some 1.35)))
  = sleep 0.1 (haptic_controller Scenario.started).
Proof.
  apply (ground_hazards_skipped_until_calibrated Scenario.started
           (Scenario.only_ground (Some 1.35))).
  - intros s Hs. unfold Scenario.only_ground.
    destruct (String.eqb_spec s "ground_sensor"); [done | reflexivity].
  - vm_compute. reflexivity.
Defined.

(** ** Detection cycle: the detection counter *)

Lemma is_danger_setup (a b : PathSense) (entry : string * option Q) :
  same_setup a b -> is_danger b entry = is_danger a entry.
Proof.
  intros (Hc & Hw & _). unfold is_danger. by rewrite Hc, Hw.
Qed.

Lemma process_obstacle_detections (self : PathSense) (sensor_name : string)
    (distance : Q) :
  sensor_name <> "ground_sensor" ->
  total_detections (_process_obstacle self sensor_name distance)
  = (total_detections self
     + (if is_danger self (sensor_name, Some distance) then 1 else 0))%nat.
Proof.
  intros Hne. unfold _process_obstacle, is_danger. cbn [fst snd].
  destruct (String.eqb_spec sensor_name "ground_sensor"); [done|].
  cbn [negb andb].
  destruct (WinterOptimizer.adjust_for_temperature _ _ _) as [c|];
    [|cbn; lia].
  destruct (Py.ltb c (Config.DANGER_ZONE (config self)));
    [cbn [with_haptic total_detections]; lia|].
  repeat destruct (Py.ltb _ _); cbn [with_haptic total_detections]; lia.
Qed.

Lemma process_obstacles_detections (sensor_data : Py.dict (option Q))
    (self : PathSense) :
  total_detections (process_obstacles sensor_data self)
  = (total_detections self
     + length (List.filter (is_danger self) sensor_data))%nat.
Proof.
  unfold process_obstacles. revert self.
  induction sensor_data as [|[s r] rest IH]; intros self; [simpl; lia|].
  cbn [fold_left List.filter]. rewrite IH.
  destruct r as [d|].
  - destruct (String.eqb_spec s "ground_sensor") as [-> | Hne]; cbn [negb].
    + unfold is_danger at 2. cbn [fst snd]. rewrite String.eqb_refl.
      cbn [negb andb]. lia.
    + rewrite process_obstacle_detections by exact Hne.
      assert (Hext :
        List.filter (is_danger (_process_obstacle self s d)) rest
        = List.filter (is_danger self) rest).
      { apply List.filter_ext. intros entry.
        apply is_danger_setup, process_obstacle_setup. }
      rewrite Hext.
      destruct (is_danger self (s, Some d)); cbn [length]; lia.
  - unfold is_danger at 2. cbn [snd]. lia.
Qed.

(** X12: a tick raises [total_detections] by the number of upper-body
    readings that pass the snow filter and whose conditioned value is below
    the Danger threshold; warnings, alerts and ground hazards, critical ones
    included, are not counted, and the counter never decreases. *)
Theorem total_detections_counts_danger (self : PathSense)
    (read_sensor : string -> option Q) :
  total_detections (tick self read_sensor)
  = (total_detections self
     + length (List.filter (is_danger self) (filtered_data self read_sensor)))%nat /\
  (total_detections self <= total_detections (tick self read_sensor))%nat.
Proof.
  assert (H : total_detections (tick self read_sensor)
    = (total_detections self
       + length (List.filter (is_danger self)
                   (filtered_data self read_sensor)))%nat); [|split; [exact H | lia]].
  unfold tick, filtered_data.
  set (sensor_data := read_all_sensors (config self) read_sensor).
  set (filtered := if Config.SNOW_FILTER_ENABLED (config self) then _ else _).
  destruct (negb _ && _); [destruct (ground_reading sensor_data)|];
    cbv beta iota zeta;
    match goal with
    | |- context [process_obstacles filtered ?s] =>
        pose proof (process_obstacles_detections filtered s) as Hn;
        assert (Hext : List.filter (is_danger s) filtered
                       = List.filter (is_danger self) filtered)
          by (apply List.filter_ext; intros entry; reflexivity);
        rewrite Hext in Hn; clear Hext;
        set (processed := process_obstacles filtered s) in *
    end;
    (destruct (ground_reading filtered);
     [destruct (GroundDetector.detect_hazard _ _) as [hazard|];
      [unfold _process_ground_hazard;
       repeat destruct (String.eqb _ _)|] |]);
    cbn [with_haptic total_detections] in *; exact Hn.
Qed.

(** ** Alert orchestrator: bookkeeping of the sessions *)

Lemma In_insert {A} (l : list A) (i : nat) (x y : A) :
  In y (<[i := x]> l) -> y = x \/ In y l.
Proof.
  revert i. induction l as [|a l IH]; intros i; [done|].
  destruct i as [|i]; simpl.
  - intros [<- | H]; auto.
  - intros [<- | H]; auto. destruct (IH i H); auto.
Qed.

Lemma lookup_In {A} (l : list A) (i : nat) (x : A) : l !! i = Some x -> In x l.
Proof. intros H. apply list_elem_of_In. by eapply list_elem_of_lookup_2. Qed.

(** Steps that leave the threads, the controls and the table alone. *)
Lemma well_formed_same (a b : HapticController) :
  motors b = motors a -> active_alerts b = active_alerts a ->
  controls b = controls a -> threads b = threads a ->
  well_formed a -> well_formed b.
Proof.
  intros Hm Ha Hc Ht (H1 & H2 & H3 & H4).
  unfold well_formed, stop_flag, is_motor. rewrite Hm, Ha, Hc, Ht.
  split; [exact H1|]. split; [exact H2|]. split; [exact H3 | exact H4].
Qed.

Lemma motor_on_same (self : HapticController) (motor_name : string)
    (strength : Q) :
  motors (_motor_on self motor_name strength) = motors self /\
  active_alerts (_motor_on self motor_name strength) = active_alerts self /\
  controls (_motor_on self motor_name strength) = controls self /\
  threads (_motor_on self motor_name strength) = threads self.
Proof. unfold _motor_on. by destruct (negb _). Qed.

Lemma motor_off_same (self : HapticController) (motor_name : string) :
  motors (_motor_off self motor_name) = motors self /\
  active_alerts (_motor_off self motor_name) = active_alerts self /\
  controls (_motor_off self motor_name) = controls self /\
  threads (_motor_off self motor_name) = threads self.
Proof. unfold _motor_off. by destruct (negb _). Qed.

(** Replacing a live thread by itself at another program point. *)
Lemma well_formed_move (a b : HapticController) (i : nat) (t : Thread)
    (pc : Pc) (wake : Q) :
  motors b = motors a -> active_alerts b = active_alerts a ->
  controls b = controls a ->
  threads a !! i = Some t -> live t = true ->
  threads b = <[i := move t pc wake]> (threads a) ->
  well_formed a -> well_formed b.
Proof.
  intros Hm Ha Hc Hlook Hlive Ht (H1 & H2 & H3 & H4).
  unfold well_formed, stop_flag, is_motor. rewrite Hm, Ha, Hc, Ht.
  split; [by rewrite length_insert|]. split; [|split; [|exact H4]].
  - intros j t'. destruct (decide (i = j)) as [<- | Hne].
    + rewrite list_lookup_insert_eq by (by eapply lookup_lt_Some).
      intros [= <-]. cbn [move th_control]. by apply H2.
    + rewrite list_lookup_insert_ne by exact Hne. apply H2.
  - intros t' Hin Hl Hflag. apply In_insert in Hin as [-> | Hin].
    + cbn [move th_motor th_control] in *.
      apply H3; [by eapply lookup_In | exact Hlive | exact Hflag].
    + by apply H3.
Qed.

Lemma vibrate_pattern_well_formed (self : HapticController) (i : nat) :
  well_formed self ->
  well_formed (_vibrate_pattern self i) /\
  motors (_vibrate_pattern self i) = motors self.
Proof.
  intros Hwf. unfold _vibrate_pattern.
  destruct (threads self !! i) as [t|] eqn:Hlook; [|done].
  destruct (patterns (th_pattern t)) as [on_time off_time].
  destruct (th_pc t) eqn:Hpc; [| |done];
    (assert (Hlive : live t = true) by (unfold live; by rewrite Hpc));
    destruct (stop_flag self (th_control t));
    match goal with
    | |- context [_motor_off ?s ?m] =>
        destruct (motor_off_same s m) as (Hm & Ha & Hc & Ht)
    | |- context [_motor_on ?s ?m ?k] =>
        destruct (motor_on_same s m k) as (Hm & Ha & Hc & Ht)
    end;
    (split; [|exact Hm]);
    eapply (well_formed_move self _ i t); try eassumption;
    cbn [set_thread motors active_alerts controls threads];
    by rewrite ?Ht.
Qed.

Lemma run_threads_well_formed (fuel : nat) (deadline : Q)
    (self : HapticController) :
  well_formed self ->
  well_formed (run_threads fuel deadline self) /\
  motors (run_threads fuel deadline self) = motors self.
Proof.
  revert self. induction fuel as [|fuel IH]; intros self Hwf; [done|].
  simpl. destruct (pick deadline (threads self) 0 None) as [[i w]|]; [|done].
  destruct (vibrate_pattern_well_formed self i Hwf) as [Hwf' Hm].
  destruct (IH _ Hwf') as [Hwf'' Hm']. split; [exact Hwf'' | congruence].
Qed.

Lemma sleep_well_formed (seconds : Q) (self : HapticController) :
  well_formed self ->
  well_formed (sleep seconds self) /\ motors (sleep seconds self) = motors self.
Proof.
  intros Hwf. unfold sleep.
  destruct (run_threads_well_formed
              (budget (clock self + seconds) (threads self))
              (clock self + seconds) self Hwf) as [Hwf' Hm].
  split; [|exact Hm].
  revert Hwf'. by apply well_formed_same.
Qed.

Lemma set_stop_flag (self : HapticController) (c j : nat) :
  stop_flag (set_stop self c) j
  = if decide (c = j) then
      (if decide (c < length (controls self))%nat then true
       else stop_flag self j)
    else stop_flag self j.
Proof.
  unfold stop_flag, set_stop. cbn [controls].
  destruct (decide (c = j)) as [<- | Hne].
  - destruct (decide (c < length (controls self))%nat) as [Hlt | Hge].
    + by rewrite list_lookup_insert_eq.
    + rewrite list_insert_ge by lia. reflexivity.
  - by rewrite list_lookup_insert_ne.
Qed.

Lemma set_stop_raises (self : HapticController) (c j : nat) :
  stop_flag (set_stop self c) j = false -> stop_flag self j = false.
Proof. rewrite set_stop_flag. repeat case_decide; try done. Qed.

Lemma set_stop_well_formed (self : HapticController) (c : nat) :
  well_formed self -> well_formed (set_stop self c).
Proof.
  intros (H1 & H2 & H3 & H4). unfold well_formed.
  cbn [set_stop controls threads active_alerts]. unfold is_motor.
  cbn [set_stop motors]. rewrite length_insert.
  split; [exact H1|]. split; [exact H2|]. split; [|exact H4].
  intros t Hin Hl Hflag. apply H3; auto. by eapply set_stop_raises.
Qed.

(** A new session may be started on a motor whose live sessions have all
    been told to stop. *)
Lemma start_alert_well_formed (self : HapticController)
    (motor_name intensity pattern : string) :
  well_formed self ->
  is_motor self motor_name = true ->
  quiet self motor_name ->
  well_formed (start_alert self motor_name intensity pattern).
Proof.
  intros (H1 & H2 & H3 & H4) Hmotor Hquiet. unfold well_formed, start_alert.
  cbn [controls threads active_alerts]. unfold is_motor, stop_flag.
  cbn [motors controls].
  split; [rewrite !length_app; simpl; lia|].
  split; [|split].
  - intros i t Hlook. apply lookup_app_Some in Hlook as [Hlook | [Hge Hlook]].
    + by apply H2.
    + apply list_lookup_singleton_Some in Hlook as [Hi <-].
      cbn [th_control]. lia.
  - intros t Hin Hl Hflag. apply in_app_or in Hin as [Hin | [<- | []]].
    + assert (Hc : (th_control t < length (controls self))%nat).
      { apply list_elem_of_In, list_elem_of_lookup in Hin as [i Hi].
        rewrite (H2 i t Hi), H1. by eapply lookup_lt_Some. }
      rewrite lookup_app_l in Hflag by exact Hc.
      destruct (decide (th_motor t = motor_name)) as [Hm | Hne].
      * specialize (Hquiet t Hin Hl Hm). unfold stop_flag in Hquiet.
        congruence.
      * rewrite lookup_insert_ne by congruence. by apply H3.
    + cbn [th_motor th_control]. apply lookup_insert_eq.
  - intros m c. rewrite lookup_insert. case_decide as Hm.
    + intros [= <-]. subst m. rewrite length_app. simpl.
      split; [lia | exact Hmotor].
    + intros Hlook. destruct (H4 m c Hlook) as [Hlt Hmot].
      rewrite length_app. split; [lia | exact Hmot].
Qed.

Lemma alert_well_formed (self : HapticController)
    (sensor_name intensity pattern : string) :
  well_formed self ->
  well_formed (alert self sensor_name intensity pattern) /\
  motors (alert self sensor_name intensity pattern) = motors self.
Proof.
  intros Hwf. unfold alert.
  set (m := _sensor_to_motor sensor_name).
  destruct (is_motor self m) eqn:Hmotor; cbn [negb]; [|done].
  destruct (active_alerts self !! m) as [c|] eqn:Hactive.
  - destruct (sleep_well_formed 0.05 (set_stop self c)
                (set_stop_well_formed self c Hwf)) as [Hwf1 Hm1].
    destruct (sleep_sessions 0.05 (set_stop self c))
      as [(_ & Ha & Hc & _) _].
    cbn [set_stop active_alerts controls motors] in *.
    split; [|exact Hm1].
    apply start_alert_well_formed; [exact Hwf1 | |].
    + unfold is_motor in *. by rewrite Hm1.
    + intros t Hin Hl Hmt.
      destruct (stop_flag (sleep 0.05 (set_stop self c)) (th_control t))
        eqn:Hflag; [done|].
      destruct Hwf1 as (_ & _ & H3 & _).
      pose proof (H3 t Hin Hl Hflag) as Hreg.
      rewrite Ha, Hmt, Hactive in Hreg. injection Hreg as Hreg.
      unfold stop_flag in Hflag. rewrite Hc, <- Hreg in Hflag.
      destruct Hwf as (_ & _ & _ & H4). destruct (H4 m c Hactive) as [Hlt _].
      by rewrite list_lookup_insert_eq in Hflag.
  - split; [|done].
    apply start_alert_well_formed; [exact Hwf | exact Hmotor |].
    intros t Hin Hl Hmt.
    destruct (stop_flag self (th_control t)) eqn:Hflag; [done|].
    destruct Hwf as (_ & _ & H3 & _).
    pose proof (H3 t Hin Hl Hflag) as Hreg. congruence.
Qed.

Lemma stop_well_formed (self : HapticController) (sensor_name : string) :
  well_formed self ->
  well_formed (stop self sensor_name) /\
  motors (stop self sensor_name) = motors self.
Proof.
  intros Hwf. unfold stop.
  destruct (active_alerts self !! _sensor_to_motor sensor_name) as [c|];
    [|done].
  destruct (motor_off_same (set_stop self c) (_sensor_to_motor sensor_name))
    as (Hm & Ha & Hc & Ht).
  split; [|by rewrite Hm].
  eapply well_formed_same; [exact Hm | exact Ha | exact Hc | exact Ht |].
  by apply set_stop_well_formed.
Qed.

Lemma init_well_formed (cfg : Config.Config) :
  well_formed (HapticController.init cfg).
Proof.
  unfold well_formed, HapticController.init.
  cbn [controls threads active_alerts]. repeat split; try done.
Qed.

(** The bookkeeping holds in every state the detection loop reaches. *)
Lemma process_obstacle_kept (self : PathSense) (sensor_name : string)
    (distance : Q) :
  well_formed (haptic_controller self) ->
  kept self (_process_obstacle self sensor_name distance).
Proof.
  intros Hwf. unfold kept, _process_obstacle.
  destruct (WinterOptimizer.adjust_for_temperature _ _ _); [|done].
  repeat destruct (Py.ltb _ _); cbn [with_haptic haptic_controller];
    first [by apply alert_well_formed | by apply stop_well_formed].
Qed.

Lemma process_obstacles_kept (sensor_data : Py.dict (option Q))
    (self : PathSense) :
  well_formed (haptic_controller self) ->
  kept self (process_obstacles sensor_data self).
Proof.
  unfold process_obstacles. revert self.
  induction sensor_data as [|[s r] rest IH]; intros self Hwf; [done|].
  cbn [fold_left].
  assert (Hstep : kept self
            match r with
            | Some d => if negb (String.eqb s "ground_sensor")
                        then _process_obstacle self s d else self
            | None => self
            end).
  { destruct r as [d|]; [|done].
    destruct (negb _); [by apply process_obstacle_kept | done]. }
  destruct Hstep as [Hwf' Hm]. destruct (IH _ Hwf') as [Hwf'' Hm'].
  split; [exact Hwf'' | congruence].
Qed.

Lemma process_ground_hazard_kept (self : PathSense)
    (hazard : GroundDetector.Hazard) :
  well_formed (haptic_controller self) ->
  kept self (_process_ground_hazard self hazard).
Proof.
  intros Hwf. unfold kept, _process_ground_hazard.
  repeat destruct (String.eqb _ _); cbn [with_haptic haptic_controller];
    by apply alert_well_formed.
Qed.

Lemma tick_kept (self : PathSense) (read_sensor : string -> option Q) :
  well_formed (haptic_controller self) ->
  kept self (tick self read_sensor).
Proof.
  intros Hwf. unfold kept, tick.
  set (sensor_data := read_all_sensors (config self) read_sensor).
  set (filtered := if Config.SNOW_FILTER_ENABLED (config self) then _ else _).
  destruct (negb _ && _); [destruct (ground_reading sensor_data)|];
    cbv beta iota zeta;
    match goal with
    | |- context [process_obstacles filtered ?s] =>
        destruct (process_obstacles_kept filtered s Hwf) as [Hwf1 Hm1];
        set (processed := process_obstacles filtered s) in *
    end;
    (destruct (ground_reading filtered);
     [destruct (GroundDetector.detect_hazard _ _) as [hazard|];
      [destruct (process_ground_hazard_kept processed hazard Hwf1)
         as [Hwf2 Hm2]|] |]);
    cbn [with_haptic haptic_controller] in *;
    match goal with
    | |- context [sleep ?d ?h] =>
        destruct (sleep_well_formed d h ltac:(assumption)) as [Hwf3 Hm3]
    end;
    (split; [exact Hwf3 | congruence]).
Qed.

Lemma detection_loop_kept (ticks : list (string -> option Q))
    (self : PathSense) :
  well_formed (haptic_controller self) ->
  kept self (_detection_loop self ticks).
Proof.
  unfold _detection_loop. revert self.
  induction ticks as [|read_sensor ticks IH]; intros self Hwf; [done|].
  cbn [fold_left]. destruct (tick_kept self read_sensor Hwf) as [Hwf' Hm].
  destruct (IH _ Hwf') as [Hwf'' Hm']. split; [exact Hwf'' | congruence].
Qed.

Lemma reachable_well_formed (cfg : Config.Config)
    (ticks : list (string -> option Q)) :
  well_formed (haptic_controller (_detection_loop (init cfg) ticks)) /\
  motors (haptic_controller (_detection_loop (init cfg) ticks))
    = Config.HAPTIC_MOTORS cfg.
Proof.
  apply (detection_loop_kept ticks (init cfg)), init_well_formed.
Qed.

(** *** At most one session per motor has not been told to stop *)

Lemma filter_nil_none {A} (P : A -> Prop) `{forall x, Decision (P x)}
    (l : list A) :
  (forall x, In x l -> ~ P x) -> filter P l = [].
Proof.
  induction l as [|x l IH]; intros Hnone; [done|].
  rewrite filter_cons. destruct (decide (P x)) as [Hp | _].
  - exfalso. apply (Hnone x); [by left | exact Hp].
  - apply IH. intros y Hy. apply Hnone. by right.
Qed.

Lemma one_owner (P : Thread -> Prop) `{forall t, Decision (P t)}
    (l : list Thread) (k c : nat) :
  (forall i t, l !! i = Some t -> th_control t = (k + i)%nat) ->
  (forall t, In t l -> P t -> th_control t = c) ->
  (length (filter P l) <= 1)%nat.
Proof.
  revert k. induction l as [|x l IH]; intros k Hidx Hown; [simpl; lia|].
  assert (Htail : forall i t, l !! i = Some t -> th_control t = (S k + i)%nat).
  { intros i t Hi. rewrite (Hidx (S i) t Hi). lia. }
  rewrite filter_cons. destruct (decide (P x)) as [Hp | _].
  - rewrite filter_nil_none; [simpl; lia|].
    intros t Ht Hpt.
    pose proof Ht as Hi.
    apply list_elem_of_In, list_elem_of_lookup in Hi as [i Hi].
    pose proof (Htail i t Hi) as Hc.
    pose proof (Hidx 0%nat x eq_refl) as Hx.
    rewrite (Hown t (or_intror Ht) Hpt) in Hc.
    rewrite (Hown x (or_introl eq_refl) Hp) in Hx. lia.
  - apply (IH (S k)); [exact Htail|]. intros t Ht. apply Hown. by right.
Qed.

Lemma well_formed_one_running (self : HapticController) (motor_name : string) :
  well_formed self -> (length (running_sessions self motor_name) <= 1)%nat.
Proof.
  intros (_ & H2 & H3 & _). unfold running_sessions.
  destruct (active_alerts self !! motor_name) as [c|] eqn:Hactive.
  - apply (one_owner _ (threads self) 0 c); [exact H2|].
    intros t Hin (Hl & Hm & Hflag).
    pose proof (H3 t Hin Hl Hflag) as Hreg. congruence.
  - rewrite filter_nil_none; [simpl; lia|].
    intros t Hin (Hl & Hm & Hflag).
    pose proof (H3 t Hin Hl Hflag) as Hreg. congruence.
Qed.

(** X13: in every state the detection loop reaches, and after any further
    alert, each motor has at most one live session whose stop flag is down:
    every session that was superseded or stopped has been told to stop, even
    if its thread has not finished yet. *)
Theorem at_most_one_running_session (cfg : Config.Config)
    (ticks : list (string -> option Q))
    (sensor_name intensity pattern motor_name : string) :
  let reached := haptic_controller (_detection_loop (init cfg) ticks) in
  (length (running_sessions reached motor_name) <= 1)%nat /\
  (length (running_sessions
             (alert reached sensor_name intensity pattern) motor_name)
   <= 1)%nat /\
  (length (running_sessions (stop reached sensor_name) motor_name) <= 1)%nat.
Proof.
  cbv zeta. destruct (reachable_well_formed cfg ticks) as [Hwf _].
  split; [by apply well_formed_one_running|]. split.
  - by apply well_formed_one_running, alert_well_formed.
  - by apply well_formed_one_running, stop_well_formed.
Qed.

(** *** A motor whose sessions have all been told to stop *)

Lemma motor_off_lookup (self : HapticController) (motor_name m : string) :
  motor_states self !! m = Some false ->
  motor_states (_motor_off self motor_name) !! m = Some false.
Proof.
  intros Hoff. unfold _motor_off. destruct (negb _); [exact Hoff|].
  cbn [set_motor_state motor_states]. rewrite lookup_insert.
  by case_decide.
Qed.

Lemma motor_on_lookup (self : HapticController) (motor_name m : string)
    (strength : Q) :
  motor_name <> m ->
  motor_states (_motor_on self motor_name strength) !! m
  = motor_states self !! m.
Proof.
  intros Hne. unfold _motor_on. destruct (negb _); [done|].
  cbn [set_motor_state motor_states]. by rewrite lookup_insert_ne.
Qed.

Lemma quiet_move (a b : HapticController) (i : nat) (t : Thread)
    (pc : Pc) (wake : Q) (m : string) :
  controls b = controls a ->
  threads a !! i = Some t -> live t = true ->
  threads b = <[i := move t pc wake]> (threads a) ->
  quiet a m -> quiet b m.
Proof.
  intros Hc Hlook Hlive Ht Hq t' Hin Hl Hm.
  unfold stop_flag. rewrite Hc. rewrite Ht in Hin.
  apply In_insert in Hin as [-> | Hin].
  - cbn [move th_motor th_control] in *.
    apply (Hq t); [by eapply lookup_In | exact Hlive | exact Hm].
  - by apply Hq.
Qed.

(** A slice of any thread keeps a quiet motor quiet, and off if it was
    off. *)
Lemma vibrate_pattern_quiet (self : HapticController) (i : nat) (m : string) :
  quiet self m ->
  quiet (_vibrate_pattern self i) m /\
  (motor_states self !! m = Some false ->
   motor_states (_vibrate_pattern self i) !! m = Some false).
Proof.
  intros Hq. unfold _vibrate_pattern.
  destruct (threads self !! i) as [t|] eqn:Hlook; [|done].
  destruct (patterns (th_pattern t)) as [on_time off_time].
  destruct (th_pc t) eqn:Hpc; [| |done];
    (assert (Hlive : live t = true) by (unfold live; by rewrite Hpc));
    destruct (stop_flag self (th_control t)) eqn:Hflag.
  - destruct (motor_off_same self (th_motor t)) as (_ & _ & Hc & Ht).
    split; [eapply (quiet_move self _ i t); eauto;
            cbn [set_thread threads controls]; by rewrite ?Ht|].
    intros Hoff. cbn [set_thread motor_states]. by apply motor_off_lookup.
  - destruct (motor_on_same self (th_motor t) (intensities (th_intensity t)))
      as (_ & _ & Hc & Ht).
    split; [eapply (quiet_move self _ i t); eauto;
            cbn [set_thread threads controls]; by rewrite ?Ht|].
    intros Hoff. cbn [set_thread motor_states].
    rewrite motor_on_lookup; [exact Hoff|].
    intros Hm. pose proof (Hq t (lookup_In _ _ _ Hlook) Hlive Hm). congruence.
  - destruct (motor_off_same self (th_motor t)) as (_ & _ & Hc & Ht).
    split; [eapply (quiet_move self _ i t); eauto;
            cbn [set_thread threads controls]; by rewrite ?Ht|].
    intros Hoff. cbn [set_thread motor_states]. by apply motor_off_lookup.
  - destruct (motor_off_same self (th_motor t)) as (_ & _ & Hc & Ht).
    split; [eapply (quiet_move self _ i t); eauto;
            cbn [set_thread threads controls]; by rewrite ?Ht|].
    intros Hoff. cbn [set_thread motor_states]. by apply motor_off_lookup.
Qed.

Lemma sleep_quiet (seconds : Q) (self : HapticController) (m : string) :
  quiet self m ->
  quiet (sleep seconds self) m /\
  (motor_states self !! m = Some false ->
   motor_states (sleep seconds self) !! m = Some false).
Proof.
  unfold sleep.
  generalize (budget (clock self + seconds) (threads self)) as fuel.
  generalize (clock self + seconds) as deadline. intros deadline fuel.
  assert (Hrun : forall h, quiet h m ->
            quiet (run_threads fuel deadline h) m /\
            (motor_states h !! m = Some false ->
             motor_states (run_threads fuel deadline h) !! m = Some false)).
  { induction fuel as [|fuel IH]; intros h Hq; [done|].
    simpl. destruct (pick deadline (threads h) 0 None) as [[i w]|]; [|done].
    destruct (vibrate_pattern_quiet h i m Hq) as [Hq' Hoff'].
    destruct (IH _ Hq') as [Hq'' Hoff'']. split; [exact Hq'' | auto]. }
  intros Hq. destruct (Hrun self Hq) as [Hq' Hoff']. split; [|exact Hoff'].
  intros t Hin Hl Hm. by apply Hq'.
Qed.

Lemma quiet_no_running (self : HapticController) (m : string) :
  quiet self m -> running_sessions self m = [].
Proof.
  intros Hq. unfold running_sessions. apply filter_nil_none.
  intros t Hin (Hl & Hm & Hflag). pose proof (Hq t Hin Hl Hm). congruence.
Qed.



(** X15: [stop] is idempotent, leaves the session table, the threads and
    the clock as they are (the entry of the channel is not removed), and
    does nothing on a channel that never had a session. *)
Theorem stop_idempotent (self : HapticController) (sensor_name : string) :
  stop (stop self sensor_name) sensor_name = stop self sensor_name /\
  active_alerts (stop self sensor_name) = active_alerts self /\
  threads (stop self sensor_name) = threads self /\
  clock (stop self sensor_name) = clock self /\
  match active_alerts self !! _sensor_to_motor sensor_name with
  | Some c => stop_flag (stop self sensor_name) c
              = orb (stop_flag self c) (c <? length (controls self))%nat
  | None => stop self sensor_name = self
  end.
Proof.
  unfold stop at 2 3 4 5 6.
  destruct (active_alerts self !! _sensor_to_motor sensor_name) as [c|] eqn:Ha.
  - set (m := _sensor_to_motor sensor_name) in *.
    destruct (motor_off_same (set_stop self c) m) as (Hm & Ha' & Hc & Ht).
    split; [|split; [exact Ha'|split; [exact Ht|split]]].
    + unfold stop. fold m. rewrite Ha'. cbn [set_stop active_alerts].
      rewrite Ha. unfold _motor_off, is_motor. cbn [set_stop motors].
      destruct (Py.get (motors self) m) eqn:Hget;
        cbn [negb set_stop set_motor_state motors]; rewrite ?Hget;
        cbn [negb set_stop set_motor_state motors]; rewrite ?Hget;
        unfold set_stop, set_motor_state;
        cbn [negb motors active_alerts motor_states controls threads clock];
        by rewrite ?list_insert_insert_eq, ?insert_insert_eq.
    + unfold _motor_off. by destruct (negb _).
    + unfold stop. fold m. rewrite Ha.
      unfold stop_flag. rewrite Hc. cbn [set_stop controls].
      destruct (Nat.ltb_spec c (length (controls self))) as [Hlt | Hge].
      * rewrite list_lookup_insert_eq by exact Hlt.
        by rewrite orb_true_r.
      * rewrite list_insert_ge by lia. by rewrite orb_false_r.
  - unfold stop. by rewrite Ha.
Qed.

(** *** Stopping everything *)

Lemma fold_set_stop (entries : list (string * nat)) (self : HapticController) :
  let flagged := fold_left (fun h entry => set_stop h entry.2) entries self in
  motors flagged = motors self /\
  active_alerts flagged = active_alerts self /\
  threads flagged = threads self /\
  length (controls flagged) = length (controls self) /\
  (forall j, stop_flag self j = true -> stop_flag flagged j = true) /\
  (forall entry, In entry entries ->
     (entry.2 < length (controls self))%nat ->
     stop_flag flagged entry.2 = true) /\
  (well_formed self -> well_formed flagged).
Proof.
  revert self. induction entries as [|[m c] entries IH]; intros self.
  { cbn [fold_left]. do 4 (split; [done|]). split; [auto|].
    split; [intros ? []|auto]. }
  cbn [fold_left snd].
  destruct (IH (set_stop self c)) as (H1 & H2 & H3 & H4 & H5 & H6 & H7).
  cbn [set_stop motors active_alerts threads controls] in *.
  rewrite length_insert in *.
  split; [exact H1|]. split; [exact H2|]. split; [exact H3|].
  split; [exact H4|]. split; [|split].
  - intros j Hj. apply H5. rewrite set_stop_flag. by repeat case_decide.
  - intros entry [<- | Hin] Hlt.
    + apply H5. rewrite set_stop_flag. cbn [snd] in *. by repeat case_decide.
    + by apply H6.
  - intros Hwf. by apply H7, set_stop_well_formed.
Qed.

Lemma get_In {V} (d : Py.dict V) (k : string) (v : V) :
  In (k, v) d -> is_Some (Py.get d k).
Proof.
  induction d as [|[k' v'] d IH]; [done|].
  cbn [Py.get]. intros [[= -> ->] | Hin].
  - rewrite String.eqb_refl. by eexists.
  - destruct (String.eqb k' k); [by eexists | by apply IH].
Qed.

Lemma fold_motor_off (entries : Py.dict Z) (self : HapticController) :
  let off := fold_left (fun h entry => _motor_off h entry.1) entries self in
  motors off = motors self /\
  active_alerts off = active_alerts self /\
  controls off = controls self /\
  threads off = threads self /\
  (forall m, motor_states self !! m = Some false ->
             motor_states off !! m = Some false) /\
  (forall entry, In entry entries -> is_motor self entry.1 = true ->
                 motor_states off !! entry.1 = Some false).
Proof.
  revert self. induction entries as [|[m pin] entries IH]; intros self.
  { cbn [fold_left]. do 4 (split; [done|]). split; [auto|]. intros ? []. }
  cbn [fold_left fst].
  destruct (IH (_motor_off self m)) as (H1 & H2 & H3 & H4 & H5 & H6).
  destruct (motor_off_same self m) as (Hm & Ha & Hc & Ht).
  do 4 (split; [congruence|]). split.
  - intros m' Hoff. by apply H5, motor_off_lookup.
  - intros entry [<- | Hin] Hmotor.
    + apply H5. cbn [fst] in *. unfold _motor_off. rewrite Hmotor.
      cbn [negb set_motor_state motor_states]. apply lookup_insert_eq.
    + apply H6; [exact Hin|]. unfold is_motor in *. by rewrite Hm.
Qed.

(** X16: from any state the detection loop reaches, [stop_all] empties the
    session table, leaves no session running on any motor and every
    configured motor off, and the motors stay off however long the caller
    sleeps afterwards, although vibration threads may outlive the call. *)
Theorem stop_all_silences (cfg : Config.Config)
    (ticks : list (string -> option Q)) (seconds : Q) :
  let reached := haptic_controller (_detection_loop (init cfg) ticks) in
  let stopped := stop_all reached in
  active_alerts stopped = ∅ /\
  motors stopped = Config.HAPTIC_MOTORS cfg /\
  (forall motor_name, running_sessions stopped motor_name = []) /\
  Forall (fun entry =>
            motor_states stopped !! entry.1 = Some false /\
            motor_states (sleep seconds stopped) !! entry.1 = Some false)
         (Config.HAPTIC_MOTORS cfg).
Proof.
  intros reached stopped.
  destruct (reachable_well_formed cfg ticks) as [Hwf Hmotors].
  fold reached in Hwf, Hmotors.
  subst stopped. unfold stop_all.
  set (entries := map_to_list (active_alerts reached)).
  destruct (fold_set_stop entries reached)
    as (F1 & F2 & F3 & F4 & F5 & F6 & F7).
  set (flagged := fold_left _ entries reached) in *.
  specialize (F7 Hwf).
  assert (Hq1 : forall m, quiet flagged m).
  { intros m t Hin Hl Hm.
    destruct (stop_flag flagged (th_control t)) eqn:Hflag; [done|].
    destruct F7 as (_ & _ & H3 & _).
    pose proof (H3 t Hin Hl Hflag) as Hreg. rewrite F2 in Hreg.
    destruct Hwf as (_ & _ & _ & H4).
    destruct (H4 _ _ Hreg) as [Hlt _].
    apply elem_of_map_to_list, list_elem_of_In in Hreg. fold entries in Hreg.
    pose proof (F6 _ Hreg Hlt) as Hset. cbn [snd] in Hset. congruence. }
  destruct (sleep_well_formed 0.1 flagged F7) as [_ S1].
  destruct (sleep_sessions 0.1 flagged) as [(_ & _ & S3 & _) _].
  set (slept := sleep 0.1 flagged) in *.
  assert (Hq2 : forall m, quiet slept m).
  { intros m. by apply sleep_quiet. }
  destruct (fold_motor_off (motors slept) slept)
    as (M1 & M2 & M3 & M4 & M5 & M6).
  set (off := fold_left _ (motors slept) slept) in *.
  set (final := {| motors := motors off; active_alerts := ∅;
                   motor_states := motor_states off;
                   controls := controls off; threads := threads off;
                   clock := clock off |}).
  assert (Hq3 : forall m, quiet final m).
  { intros m t Hin Hl Hm. unfold stop_flag. cbn [final controls threads] in *.
    rewrite M3. rewrite M4 in Hin. by apply (Hq2 m). }
  assert (Hms : motors final = Config.HAPTIC_MOTORS cfg).
  { cbn [final motors]. congruence. }
  split; [reflexivity|]. split; [exact Hms|].
  split; [intros m; by apply quiet_no_running|].
  apply List.Forall_forall. intros [m pin] Hin. cbn [fst].
  assert (Hoff : motor_states final !! m = Some false).
  { cbn [final motor_states].
    apply (M6 (m, pin)); [congruence|].
    unfold is_motor. cbn [fst]. rewrite S1, F1, Hmotors.
    by destruct (get_In _ _ _ Hin) as [v ->]. }
  split; [exact Hoff|]. by apply sleep_quiet.
Qed.

(** *** Every alert reaches a motor *)

Lemma sensor_to_motor_configured (sensor_name : string) :
  is_Some (Py.get (Config.HAPTIC_MOTORS Config.default)
                  (_sensor_to_motor sensor_name)).
Proof.
  unfold _sensor_to_motor. cbn [Py.get].
  repeat destruct (String.eqb _ sensor_name); by eexists.
Qed.

(** X17: with the motors of config.py, every sensor name, known or not, is
    mapped to a configured motor (an unknown name falls back to the centre
    motor), so in every state the detection loop reaches an alert is never
    dropped: it registers a session with a fresh control for that motor. *)
Theorem alert_always_registers (ticks : list (string -> option Q))
    (sensor_name intensity pattern : string) :
  let reached :=
    haptic_controller (_detection_loop (init Config.default) ticks) in
  let after := alert reached sensor_name intensity pattern in
  is_motor reached (_sensor_to_motor sensor_name) = true /\
  active_alerts after !! _sensor_to_motor sensor_name
    = Some (length (controls reached)) /\
  stop_flag after (length (controls reached)) = false /\
  (Py.get [ ("front_high", ()); ("front_center", ()); ("front_low", ());
            ("left_side", ()); ("right_side", ()); ("ground_sensor", ()) ]
          sensor_name = None ->
   _sensor_to_motor sensor_name = "front_center").
Proof.
  intros reached after.
  destruct (reachable_well_formed Config.default ticks) as [Hwf Hmotors].
  fold reached in Hwf, Hmotors.
  assert (Hmotor : is_motor reached (_sensor_to_motor sensor_name) = true).
  { unfold is_motor. rewrite Hmotors.
    by destruct (sensor_to_motor_configured sensor_name) as [v ->]. }
  split; [exact Hmotor|].
  split; [|split].
  - subst after. unfold alert. rewrite Hmotor. cbn [negb].
    destruct (active_alerts reached !! _sensor_to_motor sensor_name) as [c|].
    + destruct (sleep_sessions 0.05 (set_stop reached c))
        as [(_ & _ & Hc & _) _].
      unfold start_alert. cbn [active_alerts]. rewrite Hc.
      cbn [set_stop controls]. rewrite length_insert. apply lookup_insert_eq.
    + unfold start_alert. cbn [active_alerts]. apply lookup_insert_eq.
  - subst after. unfold alert. rewrite Hmotor. cbn [negb].
    destruct (active_alerts reached !! _sensor_to_motor sensor_name) as [c|].
    + destruct (sleep_sessions 0.05 (set_stop reached c))
        as [(_ & _ & Hc & _) _].
      unfold start_alert, stop_flag. cbn [controls]. rewrite Hc.
      cbn [set_stop controls].
      rewrite lookup_app_r by (rewrite length_insert; lia).
      rewrite length_insert, Nat.sub_diag. reflexivity.
    + unfold start_alert, stop_flag. cbn [controls].
      rewrite lookup_app_r by lia. rewrite Nat.sub_diag. reflexivity.
  - unfold _sensor_to_motor. cbn [Py.get].
    repeat destruct (String.eqb _ sensor_name); try discriminate. reflexivity.
Qed.
